(** * ClearTrack backend (backend/main.py): a shallow embedding

    Python floats are IEEE 754 binary64 numbers, which is what Rocq's
    primitive [float] is, so prices, share counts and totals are computed
    with the very operations the interpreter uses.  The relational store is
    the default SQLite file: three tables kept as lists in row order, whose
    REAL columns keep a NaN as NULL and -0.0 as 0.0; the SQLAlchemy session
    is a list of staged objects that only [commit] writes to the tables;
    Python exceptions are an explicit [Raise] outcome threaded by a small
    state-and-exception monad.  The market-data provider and the clock are
    read afresh at every call: both are indexed by the number of readings
    taken so far. *)

From Stdlib Require Import Floats ZArith List String Ascii Bool Lia.
From Stdlib Require Import DecimalString.
From Stdlib Require Import Sorting.Sorted Sorting.Permutation.
Import ListNotations.

Local Open Scope string_scope.
Local Open Scope list_scope.
Local Open Scope Z_scope.

(** ** Exceptions and outcomes *)

(** The two exception classes the module deals with; [HTTPException] is a
    subclass of [Exception], so [except Exception] catches both. *)
Inductive exn : Type :=
| Exception (msg : string)
| HTTPException (status_code : Z) (detail : string).

(** [str(e)], as interpolated by the f-string of the job's handler; an
    [HTTPException] prints as its status code, a colon and its detail. *)
Definition str (e : exn) : string :=
  match e with
  | Exception msg => msg
  | HTTPException status_code detail =>
      (NilZero.string_of_int (Z.to_int status_code) ++ ": " ++ detail)%string
  end.

Inductive result (A : Type) : Type :=
| Ok (a : A)
| Raise (e : exn).
Arguments Ok {A} a.
Arguments Raise {A} e.

(** ** Floats as Python uses them *)

Definition zero : float := 0%float.

(** [x == 0] and [x > 0] on Python floats. *)
Definition py_eq_zero (x : float) : bool := PrimFloat.eqb x zero.
Definition py_gt_zero (x : float) : bool := PrimFloat.ltb zero x.

(** [x / y]: Python raises [ZeroDivisionError] where IEEE would give an
    infinity or a NaN. *)
Definition truediv (x y : float) : result float :=
  if py_eq_zero y then Raise (Exception "float division by zero")
  else Ok (x / y)%float.

(** The built-in [sum]: a left-to-right accumulation starting from 0. *)
Definition float_sum (l : list float) : float :=
  fold_left PrimFloat.add l zero.

(** Two floats denote the same number: they are the same float, or they are
    the two zeros. *)
Definition same_number (x y : float) : Prop :=
  x = y \/ (py_eq_zero x = true /\ py_eq_zero y = true).

(** What comes back of a float written to a REAL column of the SQLite
    store: NULL for a NaN, 0.0 for either zero (a whole number is kept as
    an integer, which has no sign of zero), the float itself otherwise. *)
Definition sqlite_real (x : float) : option float :=
  if PrimFloat.is_nan x then None
  else if py_eq_zero x then Some zero
  else Some x.

(** The [TypeError] of a product whose operands have these types. *)
Definition type_error (left right : string) : exn :=
  Exception
    ("unsupported operand type(s) for *: '" ++ left ++ "' and '" ++ right ++
     "'")%string.

(** [x * y] on what two attributes hold: a product with [None] raises
    [TypeError]. *)
Definition py_mul (x y : option float) : result float :=
  match x, y with
  | Some a, Some b => Ok (a * b)%float
  | Some _, None => Raise (type_error "float" "NoneType")
  | None, Some _ => Raise (type_error "NoneType" "float")
  | None, None => Raise (type_error "NoneType" "NoneType")
  end.

(** The integers SQLite can bind and keep: the signed 64-bit ones. *)
Definition sqlite_integer (n : Z) : bool :=
  (- 2 ^ 63 <=? n) && (n <? 2 ^ 63).

(** ** Time *)

(** A naive UTC [datetime], as its number of microseconds since
    0001-01-01T00:00:00; [timedelta] is a number of microseconds too. *)
Definition datetime : Type := Z.

Definition microseconds_per_day : Z := 86400 * 1000000.

Definition timedelta (days : Z) : Z := days * microseconds_per_day.

(** ** Database models *)

(** The routes that read holdings compute with [shares] and
    [purchase_price] as numbers.  The one way the code gets a NULL into
    these columns is to create a holding from a NaN; such a row keeps the
    NaN here, which the store itself never holds, as the mark of its NULL
    (see [attribute]). *)
Module Holding.
Record t : Type := mk {
  id : Z;
  ticker : string;
  shares : float;
  purchase_price : float;
  created_at : datetime
}.
End Holding.

(** [holding_id] is a nullable foreign key and [price] a nullable REAL. *)
Module PriceSnapshot.
Record t : Type := mk {
  id : Z;
  holding_id : option Z;
  price : option float;
  date : datetime
}.
End PriceSnapshot.

(** The three figures are nullable REAL columns. *)
Module PortfolioHistory.
Record t : Type := mk {
  id : Z;
  date : datetime;
  total_value : option float;
  total_invested : option float;
  profit_loss : option float
}.
End PortfolioHistory.

(** ** Pydantic models *)

Module HoldingCreate.
Record t : Type := mk {
  ticker : string;
  shares : float;
  purchase_price : float
}.
End HoldingCreate.

Module HoldingResponse.
Record t : Type := mk {
  id : Z;
  ticker : string;
  shares : float;
  purchase_price : float;
  current_price : float;
  current_value : float;
  total_cost : float;
  created_at : datetime
}.
End HoldingResponse.

Module PortfolioSummary.
Record t : Type := mk {
  total_invested : float;
  current_value : float;
  holdings_count : nat;
  profit_loss : float;
  profit_loss_percent : float
}.
End PortfolioSummary.

Module PortfolioHistoryResponse.
Record t : Type := mk {
  date : string;
  profit_loss : float
}.
End PortfolioHistoryResponse.

(** ** The store and the session *)

(** The three tables, each in row order. *)
Record Database : Type := mkDatabase {
  holdings : list Holding.t;
  price_snapshots : list PriceSnapshot.t;
  portfolio_history : list PortfolioHistory.t
}.

(** An object handed to [db.add]: it has no primary key yet, and a holding
    has no [created_at] yet (a column default, filled at insertion). *)
Inductive Entity : Type :=
| NewHolding (ticker : string) (shares purchase_price : float)
| NewPriceSnapshot (holding_id : option Z) (price : float) (date : datetime)
| NewPortfolioHistory (date : datetime)
    (total_value total_invested profit_loss : float).

(** What a run sees and changes: the committed tables, the objects staged
    in the open session ([db.add], [db.delete]), the number of readings of
    the outside world (the clock, the provider) taken so far, and the lines
    printed. *)
Record State : Type := mkState {
  database : Database;
  session_new : list Entity;
  session_deleted : list Holding.t;
  ticks : nat;
  console : list string
}.

(** The external provider's answer to [Ticker(t).history(period="1d")]:
    the [Close] column of the frame, oldest row first, or an exception. *)
Definition DataFrame : Type := list float.

(** The outside world: what the market-data provider answers for a ticker
    and what the wall clock shows when they are the [n]-th reading taken.
    Two lookups of one ticker are two readings and need not agree. *)
Record Env : Type := mkEnv {
  provider : nat -> string -> result DataFrame;
  clock : nat -> datetime
}.

(** ** The monad of Python code over a state *)

Definition M (A : Type) : Type := State -> result A * State.

Definition ret {A} (a : A) : M A := fun st => (Ok a, st).

Definition bind {A B} (m : M A) (k : A -> M B) : M B :=
  fun st =>
    match m st with
    | (Ok a, st') => k a st'
    | (Raise e, st') => (Raise e, st')
    end.

Definition raise {A} (e : exn) : M A := fun st => (Raise e, st).

Definition lift {A} (r : result A) : M A := fun st => (r, st).

(** [try: m except Exception as e: handler(e)] *)
Definition try_except {A} (m : M A) (handler : exn -> M A) : M A :=
  fun st =>
    match m st with
    | (Ok a, st') => (Ok a, st')
    | (Raise e, st') => handler e st'
    end.

(** [try: m finally: cleanup] *)
Definition try_finally {A} (m : M A) (cleanup : M unit) : M A :=
  fun st =>
    match m st with
    | (r, st') =>
        match cleanup st' with
        | (Ok _, st'') => (r, st'')
        | (Raise e, st'') => (Raise e, st'')
        end
    end.

Notation "x <- m ;; k" := (bind m (fun x => k))
  (at level 61, m at next level, right associativity).
Notation "m ;;; k" := (bind m (fun _ => k))
  (at level 61, right associativity).

(** [for x in l: acc = body(i, x, acc)], [i] counting the iterations. *)
Fixpoint for_in {A Acc} (body : nat -> A -> Acc -> M Acc)
    (i : nat) (l : list A) (acc : Acc) : M Acc :=
  match l with
  | [] => ret acc
  | x :: l' => acc' <- body i x acc ;; for_in body (S i) l' acc'
  end.

(** ** Clock and console *)

(** [datetime.utcnow()]: the next reading of the clock. *)
Definition utcnow (env : Env) : M datetime :=
  fun st =>
    (Ok (clock env (ticks st)),
     mkState (database st) (session_new st) (session_deleted st)
       (S (ticks st)) (console st)).

Definition print (line : string) : M unit :=
  fun st =>
    (Ok tt,
     mkState (database st) (session_new st) (session_deleted st)
       (ticks st) (console st ++ [line])).

(** ** The session *)

(** [SessionLocal()]: a session with nothing staged. *)
Definition SessionLocal : M unit :=
  fun st => (Ok tt, mkState (database st) [] [] (ticks st) (console st)).

(** [db.close()]: whatever is staged and not committed is dropped. *)
Definition db_close : M unit :=
  fun st => (Ok tt, mkState (database st) [] [] (ticks st) (console st)).

(** [db.add(obj)]: staged only; the session is [autoflush=False] and a
    flush happens in [commit] alone. *)
Definition db_add (obj : Entity) : M unit :=
  fun st =>
    (Ok tt,
     mkState (database st) (session_new st ++ [obj]) (session_deleted st)
       (ticks st) (console st)).

(** [db.delete(obj)]: staged as well. *)
Definition db_delete (obj : Holding.t) : M unit :=
  fun st =>
    (Ok tt,
     mkState (database st) (session_new st) (session_deleted st ++ [obj])
       (ticks st) (console st)).

(** [db.query(Holding).all()] *)
Definition query_holdings_all : M (list Holding.t) :=
  fun st => (Ok (holdings (database st)), st).

(** [db.query(Holding).filter(Holding.id == holding_id).first()].  The
    store only holds 64-bit keys, so an id that a row has is found; an id
    that no row has gives [None] when it is a 64-bit integer and cannot be
    bound to the statement otherwise ([OverflowError]). *)
Definition query_holding_first (holding_id : Z) : M (option Holding.t) :=
  fun st =>
    match find (fun h => Holding.id h =? holding_id)
            (holdings (database st)) with
    | Some h => (Ok (Some h), st)
    | None =>
        if sqlite_integer holding_id then (Ok None, st)
        else (Raise (Exception
                       "Python int too large to convert to SQLite INTEGER"),
              st)
    end.

(** The primary key of a new row of a table whose keys are [ids]: one more
    than the largest key in use (the integer primary key of the default
    SQLite store). *)
Definition next_id (ids : list Z) : Z := 1 + fold_right Z.max 0 ids.

(** What a REAL column of a holding keeps of a float: as [sqlite_real],
    with the NaN left in place to mark the NULL. *)
Definition holding_real (x : float) : float :=
  if py_eq_zero x then zero else x.

(** What an attribute of a loaded holding holds: [None] for a NULL. *)
Definition attribute (column : float) : option float :=
  if PrimFloat.is_nan column then None else Some column.

(** INSERT of one staged object; [now] fills the [created_at] default and
    every float goes through the REAL column it is written to.  Returns
    the primary key given to the row. *)
Definition insert (now : datetime) (obj : Entity) (d : Database)
    : Z * Database :=
  match obj with
  | NewHolding ticker shares purchase_price =>
      let k := next_id (map Holding.id (holdings d)) in
      (k, mkDatabase
            (holdings d ++
             [Holding.mk k ticker (holding_real shares)
                (holding_real purchase_price) now])
            (price_snapshots d) (portfolio_history d))
  | NewPriceSnapshot holding_id price date =>
      let k := next_id (map PriceSnapshot.id (price_snapshots d)) in
      (k, mkDatabase (holdings d)
            (price_snapshots d ++
             [PriceSnapshot.mk k holding_id (sqlite_real price) date])
            (portfolio_history d))
  | NewPortfolioHistory date total_value total_invested profit_loss =>
      let k := next_id (map PortfolioHistory.id (portfolio_history d)) in
      (k, mkDatabase (holdings d) (price_snapshots d)
            (portfolio_history d ++
             [PortfolioHistory.mk k date (sqlite_real total_value)
                (sqlite_real total_invested) (sqlite_real profit_loss)]))
  end.

(** What the unit of work does to the children of a deleted holding: the
    [snapshots] relationship declares no delete cascade, so each snapshot
    of the holding is kept and its foreign key is set to NULL. *)
Definition detach (holding_id : Z) (s : PriceSnapshot.t) : PriceSnapshot.t :=
  match PriceSnapshot.holding_id s with
  | Some k =>
      if k =? holding_id
      then PriceSnapshot.mk (PriceSnapshot.id s) None
             (PriceSnapshot.price s) (PriceSnapshot.date s)
      else s
  | None => s
  end.

(** DELETE of one staged holding: its snapshots are detached, then its row
    is removed. *)
Definition delete_row (h : Holding.t) (d : Database) : Database :=
  mkDatabase
    (filter (fun h' => negb (Holding.id h' =? Holding.id h)) (holdings d))
    (map (detach (Holding.id h)) (price_snapshots d))
    (portfolio_history d).

(** The flush of the staged insertions, in the order they were added; only
    a holding takes a reading of the clock (its [created_at] default). *)
Fixpoint flush_new (env : Env) (objs : list Entity) (d : Database)
    (t : nat) : list Z * Database * nat :=
  match objs with
  | [] => ([], d, t)
  | obj :: objs' =>
      let t' := match obj with NewHolding _ _ _ => S t | _ => t end in
      let '(k, d') := insert (clock env t) obj d in
      let '(ks, d'', t'') := flush_new env objs' d' t' in
      (k :: ks, d'', t'')
  end.

(** [db.commit()]: everything staged is written and the session is left
    with nothing staged.  The result lists the primary keys given to the
    inserted objects (SQLAlchemy stores each in its object). *)
Definition db_commit (env : Env) : M (list Z) :=
  fun st =>
    let '(ks, d, t) :=
      flush_new env (session_new st) (database st) (ticks st) in
    (Ok ks,
     mkState (fold_left (fun d' h => delete_row h d') (session_deleted st) d)
       [] [] t (console st)).

(** [db.refresh(db_holding)]: the row of the holding with primary key [k],
    read back. *)
Definition db_refresh (k : Z) : M Holding.t :=
  fun st =>
    match find (fun h => Holding.id h =? k) (holdings (database st)) with
    | Some h => (Ok h, st)
    | None => (Raise (Exception "Could not refresh instance"), st)
    end.

(** [get_db]: the session a request handler receives, closed in a
    [finally] once the handler is done. *)
Definition get_db {A} (handler : M A) : M A :=
  SessionLocal ;;; try_finally handler db_close.

(** ** Helper functions *)

(** [get_current_price], called as the [n]-th reading: the last [Close] of
    the provider's frame; [0.0] when the frame is empty and, through
    [except Exception], when anything raised. *)
Definition get_current_price (env : Env) (n : nat) (ticker : string)
    : result float :=
  match
    match provider env n ticker with
    | Ok data =>
        match data with
        | [] => Ok zero
        | _ :: _ => Ok (last data zero)
        end
    | Raise e => Raise e
    end
  with
  | Ok price => Ok price
  | Raise _ => Ok zero
  end.

(** A call [get_current_price(ticker)]: the next reading. *)
Definition lookup (env : Env) (ticker : string) : M float :=
  fun st =>
    (get_current_price env (ticks st) ticker,
     mkState (database st) (session_new st) (session_deleted st)
       (S (ticks st)) (console st)).

(** Where a run of the snapshot job is interrupted by an exception of its
    surroundings (the storage layer, the interpreter): never; by the load
    of the holdings; in the [k]-th iteration of the loop (counted from 0),
    once that holding's snapshot is staged; or in the history step, once
    the history row is staged and before the commit. *)
Inductive Fault : Type :=
| NoFault
| RaiseAtLoad (e : exn)
| RaiseInLoop (k : nat) (e : exn)
| RaiseAtHistory (e : exn).

Definition at_load (fault : Fault) : option exn :=
  match fault with RaiseAtLoad e => Some e | _ => None end.

Definition in_loop (fault : Fault) (i : nat) : option exn :=
  match fault with
  | RaiseInLoop k e => if Nat.eqb k i then Some e else None
  | _ => None
  end.

Definition at_history (fault : Fault) : option exn :=
  match fault with RaiseAtHistory e => Some e | _ => None end.

Definition interrupt (hit : option exn) : M unit :=
  match hit with
  | Some e => raise e
  | None => ret tt
  end.

(** One iteration of the job's loop over [(portfolio_value,
    portfolio_invested)]. *)
Definition snapshot_step (env : Env) (fault : Fault) (i : nat)
    (holding : Holding.t) (totals : float * float) : M (float * float) :=
  let '(portfolio_value, portfolio_invested) := totals in
  current_price <- lookup env (Holding.ticker holding) ;;
  now <- utcnow env ;;
  db_add (NewPriceSnapshot (Some (Holding.id holding)) current_price now) ;;;
  interrupt (in_loop fault i) ;;;
  ret ((portfolio_value + current_price * Holding.shares holding)%float,
       (portfolio_invested +
        Holding.purchase_price holding * Holding.shares holding)%float).

(** The [try] block of [update_price_snapshots]. *)
Definition snapshot_body (env : Env) (fault : Fault) : M unit :=
  interrupt (at_load fault) ;;;
  holdings <- query_holdings_all ;;
  totals <- for_in (snapshot_step env fault) 0 holdings (zero, zero) ;;
  now <- utcnow env ;;
  db_add (NewPortfolioHistory now (fst totals) (snd totals)
            (fst totals - snd totals)%float) ;;;
  interrupt (at_history fault) ;;;
  _ <- db_commit env ;;
  ret tt.

(** [update_price_snapshots]: the daily job. *)
Definition update_price_snapshots (env : Env) (fault : Fault) : M unit :=
  SessionLocal ;;;
  try_finally
    (try_except (snapshot_body env fault)
       (fun e => print ("Error updating snapshots: " ++ str e)%string))
    db_close.

(** ** API routes *)

Definition read_root : M string := ret "ClearTrack API is running".

Definition holding_response (holding : Holding.t) (current_price : float)
    : HoldingResponse.t :=
  HoldingResponse.mk (Holding.id holding) (Holding.ticker holding)
    (Holding.shares holding) (Holding.purchase_price holding)
    current_price
    (current_price * Holding.shares holding)%float
    (Holding.purchase_price holding * Holding.shares holding)%float
    (Holding.created_at holding).

Definition get_holdings (env : Env) : M (list HoldingResponse.t) :=
  get_db (
    holdings <- query_holdings_all ;;
    for_in (fun _ holding response =>
              current_price <- lookup env (Holding.ticker holding) ;;
              ret (response ++ [holding_response holding current_price]))
      0 holdings []).

(** The response is built from the row read back: its products are taken
    on the attributes, which raise on a NULL, before the response is
    made. *)
Definition create_holding (env : Env) (holding : HoldingCreate.t)
    : M HoldingResponse.t :=
  get_db (
    current_price <- lookup env (HoldingCreate.ticker holding) ;;
    if py_eq_zero current_price
    then raise (HTTPException 400 "Invalid ticker symbol")
    else
      db_add (NewHolding (HoldingCreate.ticker holding)
                (HoldingCreate.shares holding)
                (HoldingCreate.purchase_price holding)) ;;;
      keys <- db_commit env ;;
      db_holding <- db_refresh (hd 0 keys) ;;
      current_value <-
        lift (py_mul (Some current_price)
                (attribute (Holding.shares db_holding))) ;;
      total_cost <-
        lift (py_mul (attribute (Holding.purchase_price db_holding))
                (attribute (Holding.shares db_holding))) ;;
      ret (HoldingResponse.mk (Holding.id db_holding)
             (Holding.ticker db_holding) (Holding.shares db_holding)
             (Holding.purchase_price db_holding) current_price
             current_value total_cost (Holding.created_at db_holding))).

Definition delete_holding (env : Env) (holding_id : Z) : M string :=
  get_db (
    holding <- query_holding_first holding_id ;;
    match holding with
    | None => raise (HTTPException 404 "Holding not found")
    | Some h =>
        db_delete h ;;;
        _ <- db_commit env ;;
        ret "Holding deleted"
    end).

Definition get_portfolio_summary (env : Env) : M PortfolioSummary.t :=
  get_db (
    holdings <- query_holdings_all ;;
    totals <-
      for_in (fun _ holding '(total_invested, current_value) =>
                current_price <- lookup env (Holding.ticker holding) ;;
                ret ((total_invested +
                      Holding.purchase_price holding *
                      Holding.shares holding)%float,
                     (current_value +
                      current_price * Holding.shares holding)%float))
        0 holdings (zero, zero) ;;
    let '(total_invested, current_value) := totals in
    let profit_loss := (current_value - total_invested)%float in
    profit_loss_percent <-
      (if py_gt_zero total_invested
       then quotient <- lift (truediv profit_loss total_invested) ;;
            ret (quotient * 100)%float
       else ret zero) ;;
    ret (PortfolioSummary.mk total_invested current_value
           (List.length holdings) profit_loss profit_loss_percent)).

(** ** Dates *)

(** [_DAYS_IN_MONTH] and [_DAYS_BEFORE_MONTH] of the [datetime] module. *)
Definition days_in_month (month : Z) : Z :=
  nth (Z.to_nat month) [0; 31; 28; 31; 30; 31; 30; 31; 31; 30; 31; 30; 31] 0.

Definition days_before_month (month : Z) : Z :=
  nth (Z.to_nat month)
    [0; 0; 31; 59; 90; 120; 151; 181; 212; 243; 273; 304; 334] 0.

(** [_ord2ymd]: the (year, month, day) of a proleptic Gregorian ordinal,
    day 1 being 0001-01-01. *)
Definition ord2ymd (ordinal : Z) : Z * Z * Z :=
  let n := ordinal - 1 in
  let n400 := n / 146097 in
  let n := n mod 146097 in
  let year := n400 * 400 + 1 in
  let n100 := n / 36524 in
  let n := n mod 36524 in
  let n4 := n / 1461 in
  let n := n mod 1461 in
  let n1 := n / 365 in
  let n := n mod 365 in
  let year := year + n100 * 100 + n4 * 4 + n1 in
  if (n1 =? 4) || (n100 =? 4) then (year - 1, 12, 31)
  else
    let leapyear := (n1 =? 3) && (negb (n4 =? 24) || (n100 =? 3)) in
    let month := Z.shiftr (n + 50) 5 in
    let preceding :=
      days_before_month month + (if (month >? 2) && leapyear then 1 else 0) in
    if preceding >? n
    then
      let month := month - 1 in
      let preceding :=
        preceding -
        (days_in_month month + (if (month =? 2) && leapyear then 1 else 0)) in
      (year, month, n - preceding + 1)
    else (year, month, n - preceding + 1).

Definition digit (n : Z) : string :=
  String (ascii_of_nat (48 + Z.to_nat (n mod 10))) EmptyString.

(** [n] in decimal, zero-padded to two and to four digits. *)
Definition pad2 (n : Z) : string := (digit (n / 10) ++ digit n)%string.
Definition pad4 (n : Z) : string := (pad2 (n / 100) ++ pad2 n)%string.

(** [d.strftime("%Y-%m-%d")] *)
Definition strftime_ymd (d : datetime) : string :=
  let '(year, month, day) := ord2ymd (d / microseconds_per_day + 1) in
  (pad4 year ++ "-" ++ pad2 month ++ "-" ++ pad2 day)%string.

(** ** History, current price, manual trigger *)

(** [ORDER BY date], ascending: each row is put before the first row of
    the sorted rest that has a later date. *)
Fixpoint insert_by_date (x : PortfolioHistory.t)
    (l : list PortfolioHistory.t) : list PortfolioHistory.t :=
  match l with
  | [] => [x]
  | y :: l' =>
      if PortfolioHistory.date x <=? PortfolioHistory.date y
      then x :: y :: l'
      else y :: insert_by_date x l'
  end.

Definition order_by_date (l : list PortfolioHistory.t)
    : list PortfolioHistory.t :=
  fold_right insert_by_date [] l.

(** [db.query(PortfolioHistory).filter(PortfolioHistory.date >= since)
       .order_by(PortfolioHistory.date).all()] *)
Definition query_history_since (since : datetime)
    : M (list PortfolioHistory.t) :=
  fun st =>
    (Ok (order_by_date
           (filter (fun r => since <=? PortfolioHistory.date r)
              (portfolio_history (database st)))),
     st).

(** [PortfolioHistoryResponse(date=..., profit_loss=entry.profit_loss)]:
    the model validates [profit_loss] as a float and refuses [None]. *)
Definition history_response (entry : PortfolioHistory.t)
    : result PortfolioHistoryResponse.t :=
  match PortfolioHistory.profit_loss entry with
  | Some profit_loss =>
      Ok (PortfolioHistoryResponse.mk
            (strftime_ymd (PortfolioHistory.date entry)) profit_loss)
  | None =>
      Raise (Exception "1 validation error for PortfolioHistoryResponse")
  end.

(** [[f(x) for x in l]]: the first element on which [f] raises ends it. *)
Fixpoint comprehension {A B} (f : A -> result B) (l : list A)
    : result (list B) :=
  match l with
  | [] => Ok []
  | x :: l' =>
      match f x with
      | Ok y =>
          match comprehension f l' with
          | Ok ys => Ok (y :: ys)
          | Raise e => Raise e
          end
      | Raise e => Raise e
      end
  end.

Definition get_portfolio_history (env : Env)
    : M (list PortfolioHistoryResponse.t) :=
  get_db (
    now <- utcnow env ;;
    let thirty_days_ago := now - timedelta 30 in
    history <- query_history_since thirty_days_ago ;;
    lift (comprehension history_response history)).

(** [s.upper()], on the ASCII letters. *)
Definition upper_ascii (c : ascii) : ascii :=
  let n := nat_of_ascii c in
  if (Nat.leb 97 n && Nat.leb n 122)%bool then ascii_of_nat (n - 32) else c.

Fixpoint upper (s : string) : string :=
  match s with
  | EmptyString => EmptyString
  | String c s' => String (upper_ascii c) (upper s')
  end.

Definition get_current_stock_price (env : Env) (ticker : string)
    : M (string * float) :=
  price <- lookup env (upper ticker) ;;
  if py_eq_zero price
  then raise (HTTPException 404 "Ticker not found")
  else ret (upper ticker, price).

Definition trigger_snapshot (env : Env) (fault : Fault) : M string :=
  update_price_snapshots env fault ;;;
  ret "Snapshot completed".

(** The requests the service answers, and the state after one of them. *)
Inductive Request : Type :=
| ReadRoot
| GetHoldings
| CreateHolding (holding : HoldingCreate.t)
| DeleteHolding (holding_id : Z)
| GetPortfolioSummary
| GetPortfolioHistory
| GetCurrentStockPrice (ticker : string)
| TriggerSnapshot (fault : Fault)
| ScheduledSnapshot (fault : Fault).

Definition serve (env : Env) (r : Request) (st : State) : State :=
  match r with
  | ReadRoot => snd (read_root st)
  | GetHoldings => snd (get_holdings env st)
  | CreateHolding holding => snd (create_holding env holding st)
  | DeleteHolding holding_id => snd (delete_holding env holding_id st)
  | GetPortfolioSummary => snd (get_portfolio_summary env st)
  | GetPortfolioHistory => snd (get_portfolio_history env st)
  | GetCurrentStockPrice ticker => snd (get_current_stock_price env ticker st)
  | TriggerSnapshot fault => snd (trigger_snapshot env fault st)
  | ScheduledSnapshot fault => snd (update_price_snapshots env fault st)
  end.

(** ** Values the statements below are phrased with *)

(** The price the lookup gives for a ticker as the [n]-th reading. *)
Definition price_of (env : Env) (n : nat) (ticker : string) : float :=
  match get_current_price env n ticker with
  | Ok price => price
  | Raise _ => zero
  end.

(** The value of a holding at the price looked up as the [n]-th reading. *)
Definition holding_value (env : Env) (n : nat) (h : Holding.t) : float :=
  (price_of env n (Holding.ticker h) * Holding.shares h)%float.

(** [f] applied to each holding together with the reading at which the
    loop looks up its price: the first lookup is reading [t] and every
    iteration takes [step] readings. *)
Fixpoint map_readings {B} (f : nat -> Holding.t -> B) (step t : nat)
    (hs : list Holding.t) : list B :=
  match hs with
  | [] => []
  | h :: hs' => f t h :: map_readings f step (step + t) hs'
  end.

Definition holding_cost (h : Holding.t) : float :=
  (Holding.purchase_price h * Holding.shares h)%float.

(** Some sample data. *)
Definition sample_env : Env :=
  mkEnv (fun _ t =>
           if String.eqb t "AAA" then Ok [7.5%float; 8%float]
           else if String.eqb t "BBB" then Ok [20%float]
           else if String.eqb t "DOWN" then Raise (Exception "timeout")
           else if String.eqb t "NAN" then Ok [nan]
           else Ok [])
        (fun n => 63800000000000000 + Z.of_nat n).

Definition sample_AAA : Holding.t := Holding.mk 1 "AAA" 10%float 5%float 0.
Definition sample_BBB : Holding.t := Holding.mk 2 "BBB" 3%float 25%float 0.
Definition sample_DOWN : Holding.t := Holding.mk 3 "DOWN" 4%float 2.5%float 0.

Definition state_of (d : Database) : State := mkState d [] [] 0%nat [].

(** One holding with one snapshot and one history row. *)
Definition tracked_holding : State :=
  state_of
    (mkDatabase [sample_AAA]
       [PriceSnapshot.mk 1 (Some 1) (Some 8%float) 63800000000000000]
       [PortfolioHistory.mk 1 63800000000000001 (Some 80%float)
          (Some 50%float) (Some 30%float)]).

Definition two_holdings : State :=
  state_of (mkDatabase [sample_AAA; sample_DOWN] [] []).

(** The snapshot a complete iteration stages for [h]: the price is reading
    [n], the date the reading after it. *)
Definition staged_snapshot (env : Env) (n : nat) (h : Holding.t) : Entity :=
  NewPriceSnapshot (Some (Holding.id h)) (price_of env n (Holding.ticker h))
    (clock env (S n)).

(** The snapshots a complete loop stages for [hs], [t] readings having been
    taken before. *)
Definition staged_snapshots (env : Env) (t : nat) (hs : list Holding.t)
    : list Entity :=
  map_readings (staged_snapshot env) 2 t hs.

(** What the snapshot row of [h] keeps: its key and the stored price. *)
Definition snapshot_columns (env : Env) (n : nat) (h : Holding.t)
    : option Z * option float :=
  (Some (Holding.id h), sqlite_real (price_of env n (Holding.ticker h))).

(** The exception with which a fault interrupts a run over [n] holdings,
    if it does: an interruption planned for an iteration the loop does not
    have never happens. *)
Definition strikes (fault : Fault) (n : nat) : option exn :=
  match fault with
  | NoFault => None
  | RaiseAtLoad e => Some e
  | RaiseInLoop k e => if Nat.ltb k n then Some e else None
  | RaiseAtHistory e => Some e
  end.

(** Two rows in ascending order of date. *)
Definition date_le (a b : PortfolioHistory.t) : Prop :=
  PortfolioHistory.date a <= PortfolioHistory.date b.

(** What identifies a snapshot row besides its foreign key. *)
Definition snapshot_core (s : PriceSnapshot.t)
    : Z * option float * datetime :=
  (PriceSnapshot.id s, PriceSnapshot.price s, PriceSnapshot.date s).

Definition is_snapshot_job (r : Request) : bool :=
  match r with
  | TriggerSnapshot _ | ScheduledSnapshot _ => true
  | _ => false
  end.

(** The requests that only read. *)
Definition is_read_only (r : Request) : bool :=
  match r with
  | ReadRoot | GetHoldings | GetPortfolioSummary | GetPortfolioHistory
  | GetCurrentStockPrice _ => true
  | _ => false
  end.

(** A string of 7-bit characters only; on these [upper] is [str.upper]. *)
Fixpoint ascii_only (s : string) : bool :=
  match s with
  | EmptyString => true
  | String c s' => Nat.ltb (nat_of_ascii c) 128 && ascii_only s'
  end.

(** No snapshot refers to a holding that is not stored. *)
Definition snapshots_refer_to_holdings (d : Database) : Prop :=
  forall s k,
    In s (price_snapshots d) -> PriceSnapshot.holding_id s = Some k ->
    In k (map Holding.id (holdings d)).

(** The listing entry of a stored holding whose price is looked up as the
    [n]-th reading. *)
Definition listed (env : Env) (n : nat) (h : Holding.t) : HoldingResponse.t :=
  holding_response h (price_of env n (Holding.ticker h)).


(** The state once one more reading has been taken. *)
Definition after_reading (st : State) : State :=
  mkState (database st) (session_new st) (session_deleted st)
    (S (ticks st)) (console st).

(** A request to create a holding with a NaN for its share count. *)
Definition nan_shares : HoldingCreate.t :=
  HoldingCreate.mk "AAA" nan 5%float.

(** The [OverflowError] of an integer that cannot be bound. *)
Definition overflow_error : exn :=
  Exception "Python int too large to convert to SQLite INTEGER".

(** The [ValidationError] of a response built from a NULL figure. *)
Definition validation_error : exn :=
  Exception "1 validation error for PortfolioHistoryResponse".

(** The entry of the history answer for a row that has a profit_loss. *)
Definition history_entry (entry : PortfolioHistory.t)
    : PortfolioHistoryResponse.t :=
  PortfolioHistoryResponse.mk (strftime_ymd (PortfolioHistory.date entry))
    (match PortfolioHistory.profit_loss entry with
     | Some profit_loss => profit_loss
     | None => zero
     end).

(** A history table whose only row is dated one day after the first
    reading of the sample clock, and one whose only row has no figures. *)
Definition dated_tomorrow : State :=
  state_of
    (mkDatabase [] []
       [PortfolioHistory.mk 1 (63800000000000000 + timedelta 1)
          (Some 80%float) (Some 50%float) (Some 30%float)]).

Definition null_figures : State :=
  state_of
    (mkDatabase [] []
       [PortfolioHistory.mk 1 (63800000000000000 - timedelta 1)
          None (Some 20%float) None]).



(** The row a creation that is not refused appends. *)
Definition created_row (env : Env) (holding : HoldingCreate.t) (st : State)
    : Holding.t :=
  Holding.mk (next_id (map Holding.id (holdings (database st))))
    (HoldingCreate.ticker holding)
    (holding_real (HoldingCreate.shares holding))
    (holding_real (HoldingCreate.purchase_price holding))
    (clock env (S (ticks st))).



(** * Properties *)

(** ** Floats *)

Lemma Prim2SF_zero : Prim2SF zero = S754_zero false.
Proof. reflexivity. Qed.

Lemma py_eq_zero_spec (x : float) :
  py_eq_zero x = true <-> exists s, Prim2SF x = S754_zero s.
Proof.
  unfold py_eq_zero. rewrite FloatAxioms.eqb_spec, Prim2SF_zero.
  destruct (Prim2SF x) as [s| s| |s m e]; cbn.
  - split; eauto.
  - destruct s; split; try discriminate; intros [? ?]; discriminate.
  - split; try discriminate; intros [? ?]; discriminate.
  - destruct s; split; try discriminate; intros [? ?]; discriminate.
Qed.

Lemma gt_zero_not_eq_zero (x : float) :
  py_gt_zero x = true -> py_eq_zero x = false.
Proof.
  unfold py_gt_zero, py_eq_zero. rewrite FloatAxioms.eqb_spec, ltb_spec, Prim2SF_zero.
  destruct (Prim2SF x) as [s| s| |s m e]; cbn; try discriminate; auto.
  all: destruct s; cbn; try discriminate; auto.
Qed.



Lemma same_number_refl (x : float) : same_number x x.
Proof. left; reflexivity. Qed.






Lemma holding_real_number (x : float) : same_number (holding_real x) x.
Proof.
  unfold holding_real. destruct (py_eq_zero x) eqn:Hz.
  - right. split; [reflexivity|exact Hz].
  - apply same_number_refl.
Qed.

Lemma holding_real_nan (x : float) :
  PrimFloat.is_nan (holding_real x) = PrimFloat.is_nan x.
Proof.
  unfold holding_real. destruct (py_eq_zero x) eqn:Hz; [|reflexivity].
  apply py_eq_zero_spec in Hz as [sz Hz].
  unfold PrimFloat.is_nan. rewrite (FloatAxioms.eqb_spec x x), Hz.
  reflexivity.
Qed.

(** ** Price lookup *)

Lemma price_of_spec (env : Env) (n : nat) (ticker : string) :
  get_current_price env n ticker = Ok (price_of env n ticker).
Proof.
  unfold price_of, get_current_price.
  destruct (provider env n ticker) as [[|c data]|e]; reflexivity.
Qed.

Lemma lookup_run (env : Env) (ticker : string) (st : State) :
  lookup env ticker st = (Ok (price_of env (ticks st) ticker), after_reading st).
Proof. unfold lookup. now rewrite price_of_spec. Qed.

(** C5: whenever it is called, the lookup answers with the last close of a
    frame that has rows, with 0.0 for an empty frame (no data, unknown
    symbol) and for any exception of the provider; it always returns and
    never raises. *)
Theorem get_current_price_never_raises (env : Env) (n : nat)
    (ticker : string) :
  (forall data, provider env n ticker = Ok data -> data <> [] ->
     get_current_price env n ticker = Ok (last data zero)) /\
  (provider env n ticker = Ok [] -> get_current_price env n ticker = Ok zero) /\
  (forall e, provider env n ticker = Raise e ->
     get_current_price env n ticker = Ok zero) /\
  (exists price, get_current_price env n ticker = Ok price) /\
  (forall e, get_current_price env n ticker <> Raise e).
Proof.
  repeat split.
  - intros data H Hne. unfold get_current_price. rewrite H.
    destruct data; [contradiction|reflexivity].
  - intros H. unfold get_current_price. now rewrite H.
  - intros e H. unfold get_current_price. now rewrite H.
  - exists (price_of env n ticker). apply price_of_spec.
  - intros e. rewrite price_of_spec. discriminate.
Qed.

(** ** Readings along a loop *)

Lemma map_readings_length {B} (f : nat -> Holding.t -> B) (step : nat)
    (hs : list Holding.t) :
  forall t, List.length (map_readings f step t hs) = List.length hs.
Proof. induction hs as [|h hs IH]; intros t; cbn; auto. Qed.





Lemma map_readings_ext {B} (f g : nat -> Holding.t -> B) (step : nat)
    (hs : list Holding.t) :
  forall t,
    (forall i h, nth_error hs i = Some h ->
                 f (step * i + t)%nat h = g (step * i + t)%nat h) ->
    map_readings f step t hs = map_readings g step t hs.
Proof.
  induction hs as [|h hs IH]; intros t H; cbn; [reflexivity|]. f_equal.
  - specialize (H 0%nat h eq_refl). now rewrite Nat.mul_0_r in H.
  - apply IH. intros i h' Hi. specialize (H (S i) h' Hi).
    replace (step * i + (step + t))%nat with (step * S i + t)%nat by lia.
    exact H.
Qed.

(** ** The loops *)


Lemma staged_snapshots_length (env : Env) (hs : list Holding.t) :
  forall t, List.length (staged_snapshots env t hs) = List.length hs.
Proof. intros t. apply map_readings_length. Qed.

(** A loop of the job that nothing interrupts stages one snapshot per
    holding and accumulates the two totals from left to right; every
    iteration takes two readings, the price and the date. *)
Lemma for_in_snapshot_step (env : Env) (hs : list Holding.t) :
  forall i value invested st,
    for_in (snapshot_step env NoFault) i hs (value, invested) st =
    (Ok (fold_left PrimFloat.add
           (map_readings (holding_value env) 2 (ticks st) hs) value,
         fold_left PrimFloat.add (map holding_cost hs) invested),
     mkState (database st)
       (session_new st ++ staged_snapshots env (ticks st) hs)
       (session_deleted st) (2 * List.length hs + ticks st)%nat
       (console st)).
Proof.
  induction hs as [|h hs IH]; intros i value invested st.
  - cbn. unfold ret. rewrite app_nil_r. now destruct st.
  - cbn [for_in]. unfold bind at 1.
    unfold snapshot_step at 1. unfold bind at 1. rewrite lookup_run.
    unfold bind, utcnow, db_add, interrupt, ret, after_reading.
    cbn [in_loop database session_new session_deleted ticks console].
    rewrite IH. cbn [database session_new session_deleted ticks console].
    unfold staged_snapshots.
    cbn [map fold_left map_readings List.length Nat.add].
    rewrite <- app_assoc. cbn [app].
    replace (2 * S (List.length hs) + ticks st)%nat
      with (2 * List.length hs + S (S (ticks st)))%nat by lia.
    reflexivity.
Qed.

(** Whatever interrupts it, the loop of the job only stages: the tables
    and the console are as before. *)
Lemma for_in_snapshot_step_frame (env : Env) (fault : Fault)
    (hs : list Holding.t) :
  forall i totals st r st',
    for_in (snapshot_step env fault) i hs totals st = (r, st') ->
    database st' = database st /\ console st' = console st.
Proof.
  induction hs as [|h hs IH]; intros i [value invested] st r st' H.
  - cbn in H. unfold ret in H. inversion H; subst; auto.
  - cbn [for_in] in H. unfold bind at 1 in H.
    unfold snapshot_step at 1 in H. unfold bind at 1 in H.
    rewrite lookup_run in H.
    unfold bind, utcnow, db_add, interrupt, ret, after_reading in H.
    cbn [database session_new session_deleted ticks console] in H.
    destruct (in_loop fault i) as [e|].
    + unfold raise in H. inversion H; subst; auto.
    + apply IH in H. cbn in H. exact H.
Qed.

(** Writing the staged snapshots of a loop adds one row per holding, in
    order, with the holding's key and the price looked up for it as the
    store keeps it; no other table changes and the clock is not read. *)
Lemma flush_staged_snapshots (env : Env) (hs : list Holding.t) :
  forall t rest d t0,
  exists rows,
    map (fun s => (PriceSnapshot.holding_id s, PriceSnapshot.price s)) rows =
    map_readings (snapshot_columns env) 2 t hs /\
    flush_new env (staged_snapshots env t hs ++ rest) d t0 =
    (let r := flush_new env rest
                (mkDatabase (holdings d) (price_snapshots d ++ rows)
                   (portfolio_history d)) t0 in
     (map PriceSnapshot.id rows ++ fst (fst r), snd (fst r), snd r)).
Proof.
  induction hs as [|h hs IH]; intros t rest d t0.
  - exists []. split; [reflexivity|]. cbn. rewrite app_nil_r.
    destruct d as [hl sl pl]; cbn.
    destruct (flush_new env rest (mkDatabase hl sl pl) t0) as [[ks d'] t'].
    reflexivity.
  - unfold staged_snapshots.
    cbn [map_readings staged_snapshot app flush_new insert].
    fold (staged_snapshots env (2 + t) hs).
    set (row := PriceSnapshot.mk _ _ _ _).
    destruct (IH (2 + t)%nat rest
                (mkDatabase (holdings d) (price_snapshots d ++ [row])
                   (portfolio_history d)) t0) as [rows [Hrows Hflush]].
    exists (row :: rows). split.
    + cbn [map]. now rewrite Hrows.
    + rewrite Hflush.
      cbn [holdings price_snapshots portfolio_history].
      rewrite <- app_assoc. cbn [app map fst snd]. reflexivity.
Qed.

(** The state an uninterrupted run of the job ends in. *)
Lemma update_price_snapshots_run (env : Env) (st : State) :
  let hs := holdings (database st) in
  let value :=
    float_sum (map_readings (holding_value env) 2 (ticks st) hs) in
  let invested := float_sum (map holding_cost hs) in
  exists rows,
    map (fun s => (PriceSnapshot.holding_id s, PriceSnapshot.price s)) rows =
    map_readings (snapshot_columns env) 2 (ticks st) hs /\
    update_price_snapshots env NoFault st =
    (Ok tt,
     mkState
       (mkDatabase hs (price_snapshots (database st) ++ rows)
          (portfolio_history (database st) ++
           [PortfolioHistory.mk
              (next_id (map PortfolioHistory.id
                          (portfolio_history (database st))))
              (clock env (2 * List.length hs + ticks st)%nat)
              (sqlite_real value) (sqlite_real invested)
              (sqlite_real (value - invested)%float)]))
       [] [] (S (2 * List.length hs + ticks st)) (console st)).
Proof.
  intros hs value invested.
  destruct (flush_staged_snapshots env hs (ticks st)
              [NewPortfolioHistory
                 (clock env (2 * List.length hs + ticks st)%nat)
                 value invested (value - invested)%float]
              (database st) (S (2 * List.length hs + ticks st)))
    as [rows [Hrows Hflush]].
  exists rows. split; [exact Hrows|].
  unfold update_price_snapshots, try_finally, try_except, snapshot_body.
  unfold bind at 1. unfold SessionLocal at 1.
  unfold bind at 1. cbn [at_load interrupt]. unfold ret at 1.
  unfold bind at 1. unfold query_holdings_all at 1.
  cbn [database].
  unfold bind at 1. rewrite for_in_snapshot_step.
  cbn [database session_new session_deleted ticks console app fst snd].
  unfold bind, utcnow, db_add, interrupt, ret, db_commit, db_close.
  cbn [at_history database session_new session_deleted ticks console].
  fold hs.
  fold (float_sum (map_readings (holding_value env) 2 (ticks st) hs)).
  fold (float_sum (map holding_cost hs)). fold value. fold invested.
  rewrite Hflush. reflexivity.
Qed.



(** ** Interrupted runs *)

(** An exception leaves the [try] block of the job before anything is
    written: the tables and the console are as the block found them. *)
Lemma snapshot_body_raise_frame (env : Env) (fault : Fault) (st : State)
    (e : exn) (st' : State) :
  snapshot_body env fault st = (Raise e, st') ->
  database st' = database st /\ console st' = console st.
Proof.
  unfold snapshot_body. unfold bind at 1.
  destruct (at_load fault) as [e0|]; cbn [interrupt].
  - unfold raise. intros H; inversion H; subst; auto.
  - unfold ret at 1. unfold bind at 1. unfold query_holdings_all at 1.
    unfold bind at 1.
    destruct (for_in (snapshot_step env fault) 0 (holdings (database st))
                (zero, zero) st) as [[totals|e1] st1] eqn:Hloop;
      apply for_in_snapshot_step_frame in Hloop.
    + unfold bind, utcnow, db_add, interrupt, ret, db_commit.
      cbn [database session_new session_deleted ticks console].
      destruct (at_history fault) as [e2|].
      * unfold raise. intros H; inversion H; subst; cbn; auto.
      * destruct (flush_new _ _ _ _) as [[ks d] t]. discriminate.
    + intros H; inversion H; subst; auto.
Qed.

(** One iteration, up to the point where a fault may strike. *)
Lemma snapshot_step_run (env : Env) (fault : Fault) (i : nat)
    (h : Holding.t) (value invested : float) (st : State) :
  snapshot_step env fault i h (value, invested) st =
  let staged :=
    mkState (database st)
      (session_new st ++ [staged_snapshot env (ticks st) h])
      (session_deleted st) (S (S (ticks st))) (console st) in
  match in_loop fault i with
  | Some e => (Raise e, staged)
  | None =>
      (Ok ((value + holding_value env (ticks st) h)%float,
           (invested + holding_cost h)%float),
       staged)
  end.
Proof.
  unfold snapshot_step. unfold bind at 1. rewrite lookup_run.
  unfold bind, utcnow, db_add, interrupt, ret, raise, after_reading.
  cbn [database session_new session_deleted ticks console].
  destruct (in_loop fault i); reflexivity.
Qed.

(** The loop raises in the iteration a fault names. *)
Lemma for_in_snapshot_step_raises (env : Env) (k : nat) (e : exn)
    (hs : list Holding.t) :
  forall i totals st,
    (i <= k < i + List.length hs)%nat ->
    exists st',
      for_in (snapshot_step env (RaiseInLoop k e)) i hs totals st =
      (Raise e, st').
Proof.
  induction hs as [|h hs IH]; intros i [value invested] st Hk.
  - cbn in Hk. lia.
  - cbn [for_in]. unfold bind at 1. rewrite snapshot_step_run.
    cbn [in_loop]. cbv zeta.
    destruct (Nat.eqb k i) eqn:Hki.
    + eauto.
    + apply Nat.eqb_neq in Hki. apply IH. cbn in Hk. lia.
Qed.

(** A fault that names none of the iterations a loop makes leaves the
    loop as it is. *)
Lemma for_in_snapshot_step_unhit (env : Env) (fault : Fault)
    (hs : list Holding.t) :
  forall i totals st,
    (forall j, (i <= j < i + List.length hs)%nat -> in_loop fault j = None) ->
    for_in (snapshot_step env fault) i hs totals st =
    for_in (snapshot_step env NoFault) i hs totals st.
Proof.
  induction hs as [|h hs IH]; intros i [value invested] st Hfault;
    cbn [for_in].
  - reflexivity.
  - unfold bind. rewrite !snapshot_step_run.
    rewrite Hfault by (cbn; lia). cbn [in_loop]. cbv zeta.
    apply IH. intros j Hj. apply Hfault. cbn. lia.
Qed.

(** A fault that does not strike leaves the whole run as it is. *)
Lemma update_price_snapshots_unhit (env : Env) (fault : Fault) (st : State) :
  strikes fault (List.length (holdings (database st))) = None ->
  update_price_snapshots env fault st = update_price_snapshots env NoFault st.
Proof.
  intros H.
  assert (Hbody : forall st0,
            holdings (database st0) = holdings (database st) ->
            snapshot_body env fault st0 = snapshot_body env NoFault st0).
  { intros st0 Hst0. unfold snapshot_body.
    destruct fault as [|e|k e|e]; cbn [strikes] in H; try discriminate;
      [reflexivity|].
    destruct (Nat.ltb k _) eqn:Hk; [discriminate|].
    apply Nat.ltb_ge in Hk.
    cbn [at_load at_history interrupt]. unfold bind at 1 5. unfold ret at 1 5.
    unfold bind at 1 4. unfold query_holdings_all at 1 2.
    unfold bind at 1 4.
    rewrite for_in_snapshot_step_unhit; [reflexivity|].
    intros j Hj. cbn [in_loop]. rewrite Hst0 in Hj.
    destruct (Nat.eqb_spec k j); [lia|reflexivity]. }
  unfold update_price_snapshots, try_finally, try_except.
  unfold bind. unfold SessionLocal. rewrite Hbody; reflexivity.
Qed.

Lemma snapshot_body_raises (env : Env) (fault : Fault) (st : State)
    (e : exn) :
  strikes fault (List.length (holdings (database st))) = Some e ->
  exists st', snapshot_body env fault st = (Raise e, st').
Proof.
  intros H. unfold snapshot_body. unfold bind at 1.
  destruct fault as [|e0|k e0|e0]; cbn [strikes] in H; try discriminate.
  - inversion H; subst. cbn. unfold raise. eauto.
  - destruct (Nat.ltb k _) eqn:Hk; [|discriminate].
    inversion H; subst. apply Nat.ltb_lt in Hk.
    cbn [at_load interrupt]. unfold ret at 1.
    unfold bind at 1. unfold query_holdings_all at 1. unfold bind at 1.
    destruct (for_in_snapshot_step_raises env k e (holdings (database st))
                0 (zero, zero) st) as [st' Hst']; [lia|].
    rewrite Hst'. eauto.
  - inversion H; subst.
    cbn [at_load interrupt]. unfold ret at 1.
    unfold bind at 1. unfold query_holdings_all at 1. unfold bind at 1.
    rewrite for_in_snapshot_step_unhit by reflexivity.
    rewrite for_in_snapshot_step.
    unfold bind, utcnow, db_add, interrupt, ret, raise. cbn. eauto.
Qed.

(** When the [try] block raises, the job prints the error and returns; the
    tables are those of before the run. *)
Lemma update_price_snapshots_raise (env : Env) (fault : Fault) (st : State)
    (e : exn) (st1 : State) :
  snapshot_body env fault (snd (SessionLocal st)) = (Raise e, st1) ->
  update_price_snapshots env fault st =
  (Ok tt,
   mkState (database st) [] [] (ticks st1)
     (console st ++ ["Error updating snapshots: " ++ str e]%string)).
Proof.
  intros H. pose proof (snapshot_body_raise_frame _ _ _ _ _ H) as [Hd Hc].
  cbn in H, Hd, Hc.
  unfold update_price_snapshots, try_finally, try_except.
  unfold bind at 1. unfold SessionLocal at 1. rewrite H.
  unfold print, db_close. cbn. now rewrite Hd, Hc.
Qed.

(** C2 (amended): when an exception is raised in the load, in the loop or
    in the history step of the snapshot job, the job aborts, the error is
    only printed and the job returns normally, and nothing of that run is
    persisted: the tables are exactly those of before the run, whatever
    had been staged before the exception. *)
Theorem interrupted_job_persists_nothing (env : Env) (fault : Fault)
    (st : State) (e : exn) :
  strikes fault (List.length (holdings (database st))) = Some e ->
  exists st1,
    snapshot_body env fault (snd (SessionLocal st)) = (Raise e, st1) /\
    update_price_snapshots env fault st =
    (Ok tt,
     mkState (database st) [] [] (ticks st1)
       (console st ++ ["Error updating snapshots: " ++ str e]%string)).
Proof.
  intros H.
  destruct (snapshot_body_raises env fault (snd (SessionLocal st)) e)
    as [st1 Hst1]; [exact H|].
  exists st1. split; [exact Hst1|].
  now apply update_price_snapshots_raise.
Qed.

Lemma interrupted_job_persists_nothing_witness :
  exists st1,
    snapshot_body sample_env (RaiseInLoop 1 (Exception "boom"))
      (snd (SessionLocal two_holdings)) = (Raise (Exception "boom"), st1) /\
    update_price_snapshots sample_env (RaiseInLoop 1 (Exception "boom"))
      two_holdings =
    (Ok tt,
     mkState (database two_holdings) [] [] (ticks st1)
       (console two_holdings ++ ["Error updating snapshots: boom"])).
Proof.
  apply (interrupted_job_persists_nothing sample_env
           (RaiseInLoop 1 (Exception "boom")) two_holdings (Exception "boom")).
  reflexivity.
Defined.

(** C2 as worded fails: with two holdings and an exception in the second
    iteration, two snapshots were staged when the exception was raised,
    and after the run the snapshot table is still empty. *)
Lemma staged_writes_are_dropped :
  let fault := RaiseInLoop 1 (Exception "boom") in
  session_new
    (snd (snapshot_body sample_env fault (snd (SessionLocal two_holdings)))) =
  [NewPriceSnapshot (Some 1) 8%float 63800000000000001;
   NewPriceSnapshot (Some 3) 0%float 63800000000000003] /\
  fst (snapshot_body sample_env fault (snd (SessionLocal two_holdings))) =
  Raise (Exception "boom") /\
  price_snapshots
    (database (snd (update_price_snapshots sample_env fault two_holdings))) =
  [] /\
  ~ (exists s,
       In s (price_snapshots
               (database
                  (snd (update_price_snapshots sample_env fault
                          two_holdings)))) /\
       PriceSnapshot.holding_id s = Some 1).
Proof.
  repeat split; try (vm_compute; reflexivity).
  intros [s [Hin _]]. vm_compute in Hin. exact Hin.
Qed.

(** ** Portfolio summary *)

Lemma for_in_summary (env : Env) (hs : list Holding.t) :
  forall i invested value st,
    for_in (fun _ holding '(total_invested, current_value) =>
              current_price <- lookup env (Holding.ticker holding) ;;
              ret ((total_invested +
                    Holding.purchase_price holding *
                    Holding.shares holding)%float,
                   (current_value +
                    current_price * Holding.shares holding)%float))
      i hs (invested, value) st =
    (Ok (fold_left PrimFloat.add (map holding_cost hs) invested,
         fold_left PrimFloat.add
           (map_readings (holding_value env) 1 (ticks st) hs) value),
     mkState (database st) (session_new st) (session_deleted st)
       (List.length hs + ticks st) (console st)).
Proof.
  induction hs as [|h hs IH]; intros i invested value st; cbn [for_in].
  - unfold ret. now destruct st.
  - unfold bind at 1. unfold bind at 1. rewrite lookup_run.
    unfold ret at 1. rewrite IH. unfold after_reading.
    cbn [database session_new session_deleted ticks console map fold_left
         map_readings List.length Nat.add].
    now rewrite Nat.add_succ_r.
Qed.

(** What the summary answers in any state; the division is reached only
    under the guard, where it does not raise. *)
Lemma get_portfolio_summary_run (env : Env) (st : State) :
  let hs := holdings (database st) in
  let invested := float_sum (map holding_cost hs) in
  let value :=
    float_sum (map_readings (holding_value env) 1 (ticks st) hs) in
  get_portfolio_summary env st =
  (Ok (PortfolioSummary.mk invested value (List.length hs)
         (value - invested)%float
         (if py_gt_zero invested
          then ((value - invested) / invested * 100)%float
          else zero)),
   mkState (database st) [] [] (List.length hs + ticks st) (console st)).
Proof.
  intros hs invested value.
  unfold get_portfolio_summary, get_db, try_finally.
  unfold bind at 1. unfold SessionLocal at 1.
  unfold bind at 1. unfold query_holdings_all at 1. cbn [database].
  unfold bind at 1. rewrite for_in_summary.
  cbn [database session_new session_deleted ticks console].
  fold hs. fold (float_sum (map holding_cost hs)).
  fold (float_sum (map_readings (holding_value env) 1 (ticks st) hs)).
  fold invested. fold value.
  unfold bind at 1.
  destruct (py_gt_zero invested) eqn:Hgt.
  - unfold bind, lift, truediv.
    rewrite (gt_zero_not_eq_zero _ Hgt). reflexivity.
  - reflexivity.
Qed.



(** ** Creating and deleting holdings *)

Lemma next_id_above (ids : list Z) (k : Z) : In k ids -> k < next_id ids.
Proof.
  unfold next_id. induction ids as [|x ids IH]; cbn [In fold_right]; [tauto|].
  intros [-> | H]; [lia|]. apply IH in H. lia.
Qed.

(** The row just inserted is the one its key finds. *)
Lemma find_new_holding (hs : list Holding.t) (row : Holding.t) :
  Holding.id row = next_id (map Holding.id hs) ->
  find (fun h => Holding.id h =? Holding.id row) (hs ++ [row]) = Some row.
Proof.
  intros Hid.
  assert (Hfresh : forall h, In h hs -> Holding.id h <> Holding.id row).
  { intros h Hin. rewrite Hid.
    pose proof (next_id_above (map Holding.id hs) (Holding.id h)
                  (in_map _ _ _ Hin)). lia. }
  clear Hid. induction hs as [|h hs IH]; cbn.
  - now rewrite Z.eqb_refl.
  - destruct (Z.eqb_spec (Holding.id h) (Holding.id row)) as [E|_].
    + exfalso. apply (Hfresh h); [now left|exact E].
    + apply IH. intros h' Hin. apply Hfresh. now right.
Qed.

(** What creating a holding does: the lookup is one reading, the
    [created_at] of the row the next. *)
Lemma create_holding_run (env : Env) (holding : HoldingCreate.t)
    (st : State) :
  let price := price_of env (ticks st) (HoldingCreate.ticker holding) in
  let row :=
    Holding.mk (next_id (map Holding.id (holdings (database st))))
      (HoldingCreate.ticker holding)
      (holding_real (HoldingCreate.shares holding))
      (holding_real (HoldingCreate.purchase_price holding))
      (clock env (S (ticks st))) in
  create_holding env holding st =
  if py_eq_zero price
  then (Raise (HTTPException 400 "Invalid ticker symbol"),
        mkState (database st) [] [] (S (ticks st)) (console st))
  else (match py_mul (Some price) (attribute (Holding.shares row)) with
        | Ok current_value =>
            match py_mul (attribute (Holding.purchase_price row))
                    (attribute (Holding.shares row)) with
            | Ok total_cost =>
                Ok (HoldingResponse.mk (Holding.id row) (Holding.ticker row)
                      (Holding.shares row) (Holding.purchase_price row)
                      price current_value total_cost
                      (Holding.created_at row))
            | Raise e => Raise e
            end
        | Raise e => Raise e
        end,
        mkState
          (mkDatabase (holdings (database st) ++ [row])
             (price_snapshots (database st))
             (portfolio_history (database st)))
          [] [] (S (S (ticks st))) (console st)).
Proof.
  intros price row.
  unfold create_holding, get_db, try_finally.
  unfold bind at 1. unfold SessionLocal at 1.
  unfold bind at 1. rewrite lookup_run. unfold after_reading.
  cbn [database session_new session_deleted ticks console]. fold price.
  destruct (py_eq_zero price); [reflexivity|].
  unfold bind at 1. unfold db_add at 1.
  unfold bind at 1. unfold db_commit at 1.
  cbn [database session_new session_deleted ticks console app flush_new
       insert fold_left hd].
  fold row. unfold bind at 1. unfold db_refresh.
  cbn [database holdings].
  change (next_id (map Holding.id (holdings (database st))))
    with (Holding.id row) at 1.
  rewrite (find_new_holding (holdings (database st)) row eq_refl).
  unfold bind, lift, ret, db_close.
  destruct (py_mul (Some price) _) as [cv|e]; [|reflexivity].
  destruct (py_mul (attribute (Holding.purchase_price row)) _) as [tc|e];
    reflexivity.
Qed.

Lemma attribute_holding_real (x : float) :
  attribute (holding_real x) =
  if PrimFloat.is_nan x then None else Some (holding_real x).
Proof. unfold attribute. now rewrite holding_real_nan. Qed.

(** C6 (amended): creating a holding raises HTTP 400 "Invalid ticker
    symbol" and leaves every table as it was exactly when the price looked
    up for its ticker compares equal to 0.  Otherwise one holding row is
    appended, with the submitted ticker and the submitted shares and
    purchase price as the store keeps them (-0.0 as 0.0, a NaN as NULL);
    when neither number is a NaN the response reports the row, with
    current_value = current_price * shares and
    total_cost = purchase_price * shares; when one of them is a NaN the
    request raises a TypeError (at the first product that meets the
    NULL), the row staying committed. *)
Theorem create_holding_validates_ticker (env : Env)
    (holding : HoldingCreate.t) (st : State) :
  let price := price_of env (ticks st) (HoldingCreate.ticker holding) in
  let outcome := create_holding env holding st in
  (py_eq_zero price = true <->
   fst outcome = Raise (HTTPException 400 "Invalid ticker symbol")) /\
  (price = zero ->
   fst outcome = Raise (HTTPException 400 "Invalid ticker symbol")) /\
  (py_eq_zero price = true -> database (snd outcome) = database st) /\
  (py_eq_zero price = false ->
   exists row,
     database (snd outcome) =
       mkDatabase (holdings (database st) ++ [row])
         (price_snapshots (database st)) (portfolio_history (database st)) /\
     Holding.ticker row = HoldingCreate.ticker holding /\
     Holding.shares row = holding_real (HoldingCreate.shares holding) /\
     Holding.purchase_price row =
       holding_real (HoldingCreate.purchase_price holding) /\
     same_number (Holding.shares row) (HoldingCreate.shares holding) /\
     same_number (Holding.purchase_price row)
       (HoldingCreate.purchase_price holding) /\
     (PrimFloat.is_nan (HoldingCreate.shares holding) = false ->
      PrimFloat.is_nan (HoldingCreate.purchase_price holding) = false ->
      exists response,
        fst outcome = Ok response /\
        HoldingResponse.id response = Holding.id row /\
        HoldingResponse.ticker response = HoldingCreate.ticker holding /\
        HoldingResponse.shares response = Holding.shares row /\
        HoldingResponse.purchase_price response =
          Holding.purchase_price row /\
        HoldingResponse.current_price response = price /\
        HoldingResponse.current_value response =
          (price * Holding.shares row)%float /\
        HoldingResponse.total_cost response =
          (Holding.purchase_price row * Holding.shares row)%float) /\
     (PrimFloat.is_nan (HoldingCreate.shares holding) = true ->
      fst outcome = Raise (type_error "float" "NoneType")) /\
     (PrimFloat.is_nan (HoldingCreate.shares holding) = false ->
      PrimFloat.is_nan (HoldingCreate.purchase_price holding) = true ->
      fst outcome = Raise (type_error "NoneType" "float"))).
Proof.
  intros price outcome. subst outcome.
  rewrite create_holding_run. fold price.
  destruct (py_eq_zero price) eqn:Hzero; cbn [fst snd database].
  - repeat split; auto. discriminate.
  - cbn [Holding.shares Holding.purchase_price Holding.id Holding.ticker
         Holding.created_at].
    rewrite !attribute_holding_real.
    split; [split; [discriminate|]|].
    { destruct (PrimFloat.is_nan (HoldingCreate.shares holding));
        [discriminate|].
      destruct (PrimFloat.is_nan (HoldingCreate.purchase_price holding));
        discriminate. }
    split; [intros E; rewrite E in Hzero; discriminate|].
    split; [discriminate|].
    intros _. eexists. split; [reflexivity|].
    cbn [Holding.shares Holding.purchase_price Holding.id Holding.ticker].
    split; [reflexivity|]. split; [reflexivity|]. split; [reflexivity|].
    split; [apply holding_real_number|].
    split; [apply holding_real_number|]. split.
    + intros Hs Hp. rewrite Hs, Hp. cbn [py_mul].
      eexists. split; [reflexivity|]. cbn. repeat split; reflexivity.
    + split.
      * intros Hs. rewrite Hs. reflexivity.
      * intros Hs Hp. rewrite Hs, Hp. reflexivity.
Qed.

(** C6 as worded fails: the ticker is priced 8, so the request is not
    refused, and the share count is a NaN; the row is persisted (with its
    share count NULL) and the request raises a TypeError where a response
    was promised. *)
Lemma nan_shares_are_persisted_without_response :
  price_of sample_env 0 "AAA" = 8%float /\
  fst (create_holding sample_env nan_shares two_holdings) =
    Raise (type_error "float" "NoneType") /\
  map Holding.id
    (holdings (database (snd (create_holding sample_env nan_shares
                                two_holdings)))) = [1; 3; 4] /\
  map (fun h => attribute (Holding.shares h))
    (holdings (database (snd (create_holding sample_env nan_shares
                                two_holdings)))) =
    [Some 10%float; Some 4%float; None] /\
  ~ (exists response,
       fst (create_holding sample_env nan_shares two_holdings) =
       Ok response).
Proof.
  repeat split; try (vm_compute; reflexivity).
  intros [response H]. vm_compute in H. discriminate.
Qed.

Lemma for_in_get_holdings (env : Env) (hs : list Holding.t) :
  forall i response st,
    for_in (fun _ holding response =>
              current_price <- lookup env (Holding.ticker holding) ;;
              ret (response ++ [holding_response holding current_price]))
      i hs response st =
    (Ok (response ++ map_readings (listed env) 1 (ticks st) hs),
     mkState (database st) (session_new st) (session_deleted st)
       (List.length hs + ticks st) (console st)).
Proof.
  induction hs as [|h hs IH]; intros i response st;
    cbn [for_in map_readings].
  - unfold ret. rewrite app_nil_r. now destruct st.
  - unfold bind at 1. unfold bind at 1. rewrite lookup_run.
    unfold ret at 1. rewrite IH. unfold after_reading, listed.
    cbn [database session_new session_deleted ticks console List.length
         Nat.add].
    now rewrite <- app_assoc, Nat.add_succ_r.
Qed.

(** The listing has one entry per stored holding, in row order, each at
    the price of its own lookup. *)
Lemma get_holdings_run (env : Env) (st : State) :
  get_holdings env st =
  (Ok (map_readings (listed env) 1 (ticks st) (holdings (database st))),
   mkState (database st) [] []
     (List.length (holdings (database st)) + ticks st) (console st)).
Proof.
  unfold get_holdings, get_db, try_finally.
  unfold bind at 1. unfold SessionLocal at 1.
  unfold bind at 1. unfold query_holdings_all at 1. cbn [database].
  rewrite for_in_get_holdings. reflexivity.
Qed.


Lemma delete_holding_run (env : Env) (holding_id : Z) (st : State) :
  delete_holding env holding_id st =
  match find (fun h => Holding.id h =? holding_id)
          (holdings (database st)) with
  | None =>
      (Raise (if sqlite_integer holding_id
              then HTTPException 404 "Holding not found"
              else overflow_error),
       mkState (database st) [] [] (ticks st) (console st))
  | Some h =>
      (Ok "Holding deleted",
       mkState (delete_row h (database st)) [] [] (ticks st) (console st))
  end.
Proof.
  unfold delete_holding, get_db, try_finally.
  unfold bind at 1. unfold SessionLocal at 1.
  unfold bind at 1. unfold query_holding_first at 1. cbn [database].
  destruct (find _ _) as [h|]; [reflexivity|].
  destruct (sqlite_integer holding_id); reflexivity.
Qed.

Lemma find_holding_none (hs : list Holding.t) (k : Z) :
  find (fun h => Holding.id h =? k) hs = None <->
  ~ (exists h, In h hs /\ Holding.id h = k).
Proof.
  split.
  - intros H [h [Hin Hk]].
    pose proof (find_none _ _ H h Hin) as Hf. cbn in Hf.
    apply Z.eqb_neq in Hf. contradiction.
  - intros H. destruct (find _ hs) as [h|] eqn:Hf; [|reflexivity].
    apply find_some in Hf as [Hin Hk]. apply Z.eqb_eq in Hk.
    exfalso. apply H. eauto.
Qed.



(** ** Portfolio history *)

Lemma insert_by_date_perm (x : PortfolioHistory.t)
    (l : list PortfolioHistory.t) :
  Permutation (insert_by_date x l) (x :: l).
Proof.
  induction l as [|y l IH]; cbn; [apply Permutation_refl|].
  destruct (PortfolioHistory.date x <=? PortfolioHistory.date y).
  - apply Permutation_refl.
  - eapply Permutation_trans; [apply perm_skip, IH|apply perm_swap].
Qed.

Lemma order_by_date_perm (l : list PortfolioHistory.t) :
  Permutation (order_by_date l) l.
Proof.
  induction l as [|x l IH]; cbn; [constructor|].
  eapply Permutation_trans; [apply insert_by_date_perm|].
  now apply perm_skip.
Qed.

Lemma insert_by_date_sorted (x : PortfolioHistory.t)
    (l : list PortfolioHistory.t) :
  StronglySorted date_le l -> StronglySorted date_le (insert_by_date x l).
Proof.
  induction 1 as [|y l Hsorted IH Hall]; cbn.
  - repeat constructor.
  - destruct (Z.leb_spec (PortfolioHistory.date x) (PortfolioHistory.date y))
      as [Hle|Hgt].
    + constructor; [now constructor|].
      constructor; [exact Hle|].
      eapply Forall_impl; [|exact Hall].
      intros z Hz. unfold date_le in *. lia.
    + constructor; [exact IH|].
      eapply Permutation_Forall;
        [apply Permutation_sym, insert_by_date_perm|].
      constructor; [unfold date_le; lia|exact Hall].
Qed.

Lemma order_by_date_sorted (l : list PortfolioHistory.t) :
  StronglySorted date_le (order_by_date l).
Proof.
  induction l as [|x l IH]; cbn; [constructor|].
  now apply insert_by_date_sorted.
Qed.

Lemma comprehension_history (rows : list PortfolioHistory.t) :
  ((forall r, In r rows -> PortfolioHistory.profit_loss r <> None) ->
   comprehension history_response rows = Ok (map history_entry rows)) /\
  ((exists r, In r rows /\ PortfolioHistory.profit_loss r = None) ->
   comprehension history_response rows = Raise validation_error).
Proof.
  induction rows as [|r rows [IHok IHraise]]; cbn [comprehension map].
  - split; [reflexivity|]. intros [r [[] _]].
  - unfold history_response at 1 3, history_entry at 1.
    destruct (PortfolioHistory.profit_loss r) as [p|] eqn:Hp; split.
    + intros Hall. rewrite IHok; [reflexivity|].
      intros r' Hin. apply Hall. now right.
    + intros [r' [[<-|Hin] Hnull]]; [congruence|].
      rewrite IHraise; [reflexivity|]. eauto.
    + intros Hall. exfalso. apply (Hall r); [now left|exact Hp].
    + reflexivity.
Qed.

Lemma get_portfolio_history_run (env : Env) (st : State) :
  get_portfolio_history env st =
  (comprehension history_response
     (order_by_date
        (filter (fun r => clock env (ticks st) - timedelta 30 <=?
                          PortfolioHistory.date r)
           (portfolio_history (database st)))),
   mkState (database st) [] [] (S (ticks st)) (console st)).
Proof.
  unfold get_portfolio_history, get_db, try_finally.
  unfold bind at 1. unfold SessionLocal at 1.
  unfold bind at 1. unfold utcnow at 1.
  cbn [database session_new session_deleted ticks console].
  unfold bind at 1. unfold query_history_since at 1. cbn [database].
  unfold lift, db_close.
  destruct (comprehension _ _); reflexivity.
Qed.

(** C8 (amended): the history query selects exactly the stored
    PortfolioHistory rows dated no earlier than 30 days before now (each
    once, none older; there is no upper bound, so a row dated after now is
    selected too), in ascending order of date, and changes no table.  When
    every selected row has a profit_loss it answers with their formatted
    dates and profit_loss, in that order; when one has a NULL profit_loss
    it raises a validation error instead. *)
Theorem get_portfolio_history_last_30_days (env : Env) (st : State) :
  let now := clock env (ticks st) in
  let table := portfolio_history (database st) in
  exists rows,
    database (snd (get_portfolio_history env st)) = database st /\
    Permutation rows
      (filter (fun r => now - 30 * 86400 * 1000000 <=?
                        PortfolioHistory.date r) table) /\
    (forall r, In r rows <->
               In r table /\
               now - 30 * 86400 * 1000000 <= PortfolioHistory.date r) /\
    (forall r, In r table ->
               PortfolioHistory.date r < now - 30 * 86400 * 1000000 ->
               ~ In r rows) /\
    (forall r, In r table -> now < PortfolioHistory.date r -> In r rows) /\
    StronglySorted date_le rows /\
    ((forall r, In r rows -> PortfolioHistory.profit_loss r <> None) ->
     fst (get_portfolio_history env st) = Ok (map history_entry rows)) /\
    ((exists r, In r rows /\ PortfolioHistory.profit_loss r = None) ->
     fst (get_portfolio_history env st) = Raise validation_error).
Proof.
  intros now table. rewrite get_portfolio_history_run.
  fold now. fold table. cbn [fst snd database].
  change (timedelta 30) with (30 * 86400 * 1000000).
  set (recent := filter _ table).
  assert (Hin : forall r, In r (order_by_date recent) <->
                 In r table /\
                 now - 30 * 86400 * 1000000 <= PortfolioHistory.date r).
  { intros r. split.
    - intros H.
      apply (Permutation_in _ (order_by_date_perm recent)) in H.
      apply filter_In in H as [H1 H2]. apply Z.leb_le in H2. auto.
    - intros [H1 H2].
      apply (Permutation_in _ (Permutation_sym (order_by_date_perm recent))).
      apply filter_In. split; [exact H1|now apply Z.leb_le]. }
  exists (order_by_date recent).
  split; [reflexivity|].
  split; [apply order_by_date_perm|]. split; [exact Hin|].
  split; [intros r _ Hold Hr; apply Hin in Hr as [_ Hr]; lia|].
  split; [intros r Ht Hr; apply Hin; split; [exact Ht|lia]|].
  split; [apply order_by_date_sorted|].
  apply comprehension_history.
Qed.

(** C8 as worded fails twice: a row dated a day after now, which is not
    within the last 30 days, is part of the answer; and a row of yesterday
    whose profit_loss is NULL gets no answer but a validation error. *)
Lemma history_has_no_upper_bound_and_may_raise :
  clock sample_env (ticks dated_tomorrow) = 63800000000000000 /\
  fst (get_portfolio_history sample_env dated_tomorrow) =
    Ok [PortfolioHistoryResponse.mk "2022-09-29" 30%float] /\
  strftime_ymd (clock sample_env (ticks dated_tomorrow)) = "2022-09-28" /\
  fst (get_portfolio_history sample_env null_figures) =
    Raise validation_error.
Proof. repeat split; vm_compute; reflexivity. Qed.

(** ** Snapshot rows across requests *)

(** Interrupted or not, a run of the job only appends to the snapshot
    table. *)
Lemma update_price_snapshots_appends (env : Env) (fault : Fault)
    (st : State) :
  exists rows,
    price_snapshots (database (snd (update_price_snapshots env fault st))) =
    price_snapshots (database st) ++ rows.
Proof.
  destruct (strikes fault (List.length (holdings (database st))))
    as [e|] eqn:Hs.
  - destruct (snapshot_body_raises env fault (snd (SessionLocal st)) e Hs)
      as [st1 Hst1].
    rewrite (update_price_snapshots_raise _ _ _ _ _ Hst1).
    exists []. cbn. now rewrite app_nil_r.
  - rewrite (update_price_snapshots_unhit _ _ _ Hs).
    destruct (update_price_snapshots_run env st) as [rows [_ Hrun]].
    rewrite Hrun. exists rows. reflexivity.
Qed.

Lemma detach_core (k : Z) (s : PriceSnapshot.t) :
  snapshot_core (detach k s) = snapshot_core s.
Proof.
  unfold detach. destruct (PriceSnapshot.holding_id s) as [j|]; auto.
  destruct (j =? k); reflexivity.
Qed.

Lemma detach_own (k : Z) (s : PriceSnapshot.t) :
  PriceSnapshot.holding_id s = Some k ->
  detach k s =
  PriceSnapshot.mk (PriceSnapshot.id s) None (PriceSnapshot.price s)
    (PriceSnapshot.date s).
Proof. intros H. unfold detach. now rewrite H, Z.eqb_refl. Qed.

Lemma detach_other (k : Z) (s : PriceSnapshot.t) :
  PriceSnapshot.holding_id s <> Some k -> detach k s = s.
Proof.
  intros H. unfold detach. destruct (PriceSnapshot.holding_id s) as [j|]; auto.
  destruct (Z.eqb_spec j k); [subst; contradiction|reflexivity].
Qed.

Lemma get_current_stock_price_run (env : Env) (ticker : string) (st : State) :
  get_current_stock_price env ticker st =
  if py_eq_zero (price_of env (ticks st) (upper ticker))
  then (Raise (HTTPException 404 "Ticker not found"), after_reading st)
  else (Ok (upper ticker, price_of env (ticks st) (upper ticker)),
        after_reading st).
Proof.
  unfold get_current_stock_price, bind. rewrite lookup_run.
  destruct (py_eq_zero _); reflexivity.
Qed.

(** C9 (amended): no request removes a PriceSnapshot row or changes its
    id, price or date, and only a run of the snapshot job adds rows;
    deleting an existing holding keeps every snapshot row, sets the
    holding_id of that holding's snapshots to NULL, and leaves the
    snapshots of other holdings and the PortfolioHistory rows as they
    were. *)
Theorem snapshot_rows_outlive_their_holding (env : Env) (st : State) :
  let snaps := price_snapshots (database st) in
  (forall r, exists added,
     map snapshot_core (price_snapshots (database (serve env r st))) =
     map snapshot_core snaps ++ added /\
     (is_snapshot_job r = false -> added = [])) /\
  (forall k,
     (exists h, In h (holdings (database st)) /\ Holding.id h = k) ->
     let after := database (serve env (DeleteHolding k) st) in
     price_snapshots after = map (detach k) snaps /\
     List.length (price_snapshots after) = List.length snaps /\
     (forall s, In s snaps -> PriceSnapshot.holding_id s = Some k ->
        In (PriceSnapshot.mk (PriceSnapshot.id s) None
              (PriceSnapshot.price s) (PriceSnapshot.date s))
           (price_snapshots after)) /\
     (forall s, In s snaps -> PriceSnapshot.holding_id s <> Some k ->
        In s (price_snapshots after)) /\
     portfolio_history after = portfolio_history (database st)).
Proof.
  intros snaps. split.
  - intros r. destruct r; cbn [serve is_snapshot_job].
    + exists []. now rewrite app_nil_r.
    + rewrite get_holdings_run. exists []. now rewrite app_nil_r.
    + rewrite create_holding_run. exists [].
      destruct (py_eq_zero _); cbn [snd database price_snapshots];
        now rewrite app_nil_r.
    + rewrite delete_holding_run. exists [].
      destruct (find _ _) as [h|]; cbn [snd database delete_row
                                         price_snapshots];
        rewrite app_nil_r; [|auto].
      split; [|auto]. rewrite map_map. apply map_ext. apply detach_core.
    + rewrite get_portfolio_summary_run. exists []. now rewrite app_nil_r.
    + rewrite get_portfolio_history_run. exists []. now rewrite app_nil_r.
    + exists []. rewrite app_nil_r. split; [|auto].
      rewrite get_current_stock_price_run.
      destruct (py_eq_zero _); reflexivity.
    + destruct (update_price_snapshots_appends env fault st) as [rows Hrows].
      exists (map snapshot_core rows). split; [|discriminate].
      unfold trigger_snapshot, bind, ret.
      destruct (update_price_snapshots env fault st) as [[[]|e] st'];
        cbn [snd] in *; now rewrite Hrows, map_app.
    + destruct (update_price_snapshots_appends env fault st) as [rows Hrows].
      exists (map snapshot_core rows). split; [|discriminate].
      now rewrite Hrows, map_app.
  - intros k Hk after. subst after. cbn [serve].
    rewrite delete_holding_run.
    destruct (find (fun h => Holding.id h =? k) (holdings (database st)))
      as [h|] eqn:Hfind.
    + apply find_some in Hfind as [_ Hid]. apply Z.eqb_eq in Hid.
      cbn [snd database delete_row price_snapshots portfolio_history].
      rewrite Hid. fold snaps.
      split; [reflexivity|]. split; [apply length_map|].
      split; [|split; [|reflexivity]].
      * intros s Hin Hs. rewrite <- (detach_own k s Hs). now apply in_map.
      * intros s Hin Hs. rewrite <- (detach_other k s Hs) at 1.
        now apply in_map.
    + exfalso. apply find_holding_none in Hfind. contradiction.
Qed.

(** C9 as worded fails: deleting the only holding leaves its snapshot row
    in the table, with its foreign key set to NULL. *)
Lemma delete_keeps_snapshot_rows :
  fst (delete_holding sample_env 1 tracked_holding) = Ok "Holding deleted" /\
  holdings (database (snd (delete_holding sample_env 1 tracked_holding))) =
  [] /\
  price_snapshots
    (database (snd (delete_holding sample_env 1 tracked_holding))) =
  [PriceSnapshot.mk 1 None (Some 8%float) 63800000000000000] /\
  price_snapshots
    (database (snd (delete_holding sample_env 1 tracked_holding))) <> [].
Proof.
  repeat split; try (vm_compute; reflexivity).
  vm_compute. discriminate.
Qed.


(** ** A failed lookup inside the job *)





(** ** Worked examples *)

Example strftime_ymd_example :
  strftime_ymd 63800000000000000 = "2022-09-28" /\
  strftime_ymd (63800000000000000 - timedelta 30) = "2022-08-29".
Proof. split; reflexivity. Qed.

(** Three stored rows, the middle one 31 days old: the answer has the other
    two, the older first, although it is stored last. *)
Example get_portfolio_history_example :
  let now := 63800000000000000 in
  let table :=
    [PortfolioHistory.mk 1 (now - timedelta 1) (Some 80%float)
       (Some 50%float) (Some 30%float);
     PortfolioHistory.mk 2 (now - timedelta 31) (Some 70%float)
       (Some 50%float) (Some 20%float);
     PortfolioHistory.mk 3 (now - timedelta 30) (Some 60%float)
       (Some 50%float) (Some 10%float)] in
  fst (get_portfolio_history sample_env (state_of (mkDatabase [] [] table))) =
  Ok [PortfolioHistoryResponse.mk "2022-08-29" 10%float;
      PortfolioHistoryResponse.mk "2022-09-27" 30%float].
Proof. reflexivity. Qed.

(** Nothing invested (a purchase price of 0) and a value of 80: the
    percentage is 0 and nothing is divided. *)
Example profit_loss_percent_nothing_invested :
  fst (get_portfolio_summary sample_env
         (state_of
            (mkDatabase [Holding.mk 1 "AAA" 10%float 0%float 0] [] []))) =
  Ok (PortfolioSummary.mk 0%float 80%float 1 80%float 0%float).
Proof. reflexivity. Qed.

(** A ticker the provider fails on is refused; a known one is stored, and
    a share count of -0.0 comes back as 0.0. *)
Example create_holding_example :
  fst (create_holding sample_env (HoldingCreate.mk "DOWN" 1%float 1%float)
         two_holdings) =
  Raise (HTTPException 400 "Invalid ticker symbol") /\
  fst (create_holding sample_env (HoldingCreate.mk "BBB" 3%float 25%float)
         two_holdings) =
  Ok (HoldingResponse.mk 4 "BBB" 3%float 25%float 20%float 60%float 75%float
        63800000000000001) /\
  fst (create_holding sample_env
         (HoldingCreate.mk "BBB" (- 0)%float 25%float) two_holdings) =
  Ok (HoldingResponse.mk 4 "BBB" 0%float 25%float 20%float 0%float 0%float
        63800000000000001).
Proof. repeat split; reflexivity. Qed.

(** The job's handler prints an HTTP exception with its status code. *)
Example str_example :
  str (HTTPException 404 "Holding not found") = "404: Holding not found" /\
  str (Exception "boom") = "boom".
Proof. split; reflexivity. Qed.

(** * Further properties of the routes and of the job *)

(** ** Listing *)


(** ** Current price of one ticker *)

Lemma upper_ascii_idempotent (c : ascii) :
  upper_ascii (upper_ascii c) = upper_ascii c.
Proof. destruct c as [[] [] [] [] [] [] [] []]; reflexivity. Qed.

Lemma upper_idempotent (s : string) : upper (upper s) = upper s.
Proof.
  induction s as [|c s IH]; cbn; [reflexivity|].
  now rewrite upper_ascii_idempotent, IH.
Qed.

(** X2: for an ASCII ticker, the single-ticker route looks up the
    upper-cased ticker; it raises HTTP 404 "Ticker not found" exactly when
    that price compares equal to 0 and otherwise answers with the
    upper-cased ticker and that price; either way nothing changes but the
    reading that was taken. *)
Theorem get_current_stock_price_not_found_or_price (env : Env)
    (ticker : string) (st : State) :
  ascii_only ticker = true ->
  let price := price_of env (ticks st) (upper ticker) in
  let outcome := get_current_stock_price env ticker st in
  snd outcome = after_reading st /\
  (py_eq_zero price = true <->
   fst outcome = Raise (HTTPException 404 "Ticker not found")) /\
  (py_eq_zero price = false <-> fst outcome = Ok (upper ticker, price)) /\
  (provider env (ticks st) (upper ticker) = Ok [] ->
   fst outcome = Raise (HTTPException 404 "Ticker not found")) /\
  (forall e, provider env (ticks st) (upper ticker) = Raise e ->
   fst outcome = Raise (HTTPException 404 "Ticker not found")).
Proof.
  intros _ price outcome. subst outcome.
  rewrite get_current_stock_price_run. fold price.
  assert (Hfail : get_current_price env (ticks st) (upper ticker) = Ok zero ->
                  py_eq_zero price = true).
  { intros H. unfold price, price_of. now rewrite H. }
  destruct (py_eq_zero price) eqn:Hzero; cbn [fst snd].
  - repeat split; auto; discriminate.
  - split; [reflexivity|]. split; [split; discriminate|].
    split; [split; auto|]. split.
    + intros H. enough (false = true) by discriminate. apply Hfail.
      unfold get_current_price. now rewrite H.
    + intros e H. enough (false = true) by discriminate. apply Hfail.
      unfold get_current_price. now rewrite H.
Qed.

Lemma get_current_stock_price_not_found_or_price_witness :
  snd (get_current_stock_price sample_env "aaa" two_holdings) =
  after_reading two_holdings /\
  fst (get_current_stock_price sample_env "aaa" two_holdings) =
  Ok ("AAA", 8%float).
Proof.
  pose proof (get_current_stock_price_not_found_or_price sample_env "aaa"
                two_holdings eq_refl) as [Hst [_ [Hok _]]].
  split; [exact Hst|]. apply Hok. reflexivity.
Defined.

(** X3: the single-ticker route does not tell the case of ASCII letters
    apart: a ticker and its upper-cased form get the same answer. *)
Theorem get_current_stock_price_ignores_case (env : Env) (ticker : string)
    (st : State) :
  ascii_only ticker = true ->
  get_current_stock_price env ticker st =
  get_current_stock_price env (upper ticker) st.
Proof.
  intros _. rewrite !get_current_stock_price_run.
  now rewrite upper_idempotent.
Qed.

Lemma get_current_stock_price_ignores_case_witness :
  get_current_stock_price sample_env "bBb" two_holdings =
  get_current_stock_price sample_env "BBB" two_holdings.
Proof.
  apply (get_current_stock_price_ignores_case sample_env "bBb" two_holdings).
  reflexivity.
Defined.

(** ** The job under every fault *)

Lemma update_price_snapshots_returns (env : Env) (fault : Fault)
    (st : State) :
  fst (update_price_snapshots env fault st) = Ok tt.
Proof.
  destruct (strikes fault (List.length (holdings (database st))))
    as [e|] eqn:Hs.
  - destruct (snapshot_body_raises env fault (snd (SessionLocal st)) e Hs)
      as [st1 Hst1].
    now rewrite (update_price_snapshots_raise _ _ _ _ _ Hst1).
  - rewrite (update_price_snapshots_unhit _ _ _ Hs).
    destruct (update_price_snapshots_run env st) as [rows [_ Hrun]].
    now rewrite Hrun.
Qed.


(** X5: the manual trigger answers "Snapshot completed" whatever happened
    to the run: also when the run was interrupted, printed its error and
    left every table as it was. *)
Theorem trigger_snapshot_always_reports_completion (env : Env)
    (fault : Fault) (st : State) :
  fst (trigger_snapshot env fault st) = Ok "Snapshot completed" /\
  snd (trigger_snapshot env fault st) =
  snd (update_price_snapshots env fault st) /\
  (forall e,
     strikes fault (List.length (holdings (database st))) = Some e ->
     database (snd (trigger_snapshot env fault st)) = database st /\
     console (snd (trigger_snapshot env fault st)) =
       console st ++ ["Error updating snapshots: " ++ str e]%string).
Proof.
  pose proof (update_price_snapshots_returns env fault st) as Hret.
  assert (Hrun : trigger_snapshot env fault st =
                 (Ok "Snapshot completed",
                  snd (update_price_snapshots env fault st))).
  { unfold trigger_snapshot, bind, ret.
    destruct (update_price_snapshots env fault st) as [[[]|e] st'];
      [reflexivity|discriminate]. }
  rewrite Hrun. cbn [fst snd]. split; [reflexivity|]. split; [reflexivity|].
  intros e Hs.
  destruct (snapshot_body_raises env fault (snd (SessionLocal st)) e Hs)
    as [st1 Hst1].
  rewrite (update_price_snapshots_raise _ _ _ _ _ Hst1). cbn. auto.
Qed.


(** ** Creating, listing and deleting together *)

Lemma holding_ids_below_next (hs : list Holding.t) (h : Holding.t) :
  In h hs -> Holding.id h <> next_id (map Holding.id hs).
Proof.
  intros Hin.
  pose proof (next_id_above (map Holding.id hs) (Holding.id h)
                (in_map _ _ _ Hin)). lia.
Qed.

Lemma filter_other_ids (hs : list Holding.t) (k : Z) :
  (forall h, In h hs -> Holding.id h <> k) ->
  filter (fun h => negb (Holding.id h =? k)) hs = hs.
Proof.
  induction hs as [|h hs IH]; intros Hfresh; cbn; [reflexivity|].
  destruct (Z.eqb_spec (Holding.id h) k) as [E|_]; cbn.
  - exfalso. apply (Hfresh h); [now left|exact E].
  - f_equal. apply IH. intros h' Hin. apply Hfresh. now right.
Qed.

(** A creation with a priced ticker and two numbers answers with the row
    it appended. *)
Lemma create_holding_numbers (env : Env) (holding : HoldingCreate.t)
    (st : State) :
  py_eq_zero (price_of env (ticks st) (HoldingCreate.ticker holding)) =
    false ->
  PrimFloat.is_nan (HoldingCreate.shares holding) = false ->
  PrimFloat.is_nan (HoldingCreate.purchase_price holding) = false ->
  create_holding env holding st =
  (Ok (holding_response (created_row env holding st)
         (price_of env (ticks st) (HoldingCreate.ticker holding))),
   mkState
     (mkDatabase (holdings (database st) ++ [created_row env holding st])
        (price_snapshots (database st)) (portfolio_history (database st)))
     [] [] (S (S (ticks st))) (console st)).
Proof.
  intros Hprice Hs Hp. rewrite create_holding_run, Hprice.
  cbn [Holding.shares Holding.purchase_price].
  rewrite !attribute_holding_real, Hs, Hp. reflexivity.
Qed.



(** X7: creating a holding from a priced ticker and two numbers and then
    deleting it by the id of the response puts every table back as it
    was, provided no stored snapshot refers to a holding that is not
    stored. *)
Theorem create_then_delete_restores (env : Env) (holding : HoldingCreate.t)
    (st : State) :
  py_eq_zero (price_of env (ticks st) (HoldingCreate.ticker holding)) =
    false ->
  PrimFloat.is_nan (HoldingCreate.shares holding) = false ->
  PrimFloat.is_nan (HoldingCreate.purchase_price holding) = false ->
  snapshots_refer_to_holdings (database st) ->
  exists response st1,
    create_holding env holding st = (Ok response, st1) /\
    fst (delete_holding env (HoldingResponse.id response) st1) =
      Ok "Holding deleted" /\
    database (snd (delete_holding env (HoldingResponse.id response) st1)) =
      database st.
Proof.
  intros Hprice Hs Hp Hrefs.
  rewrite (create_holding_numbers _ _ _ Hprice Hs Hp).
  eexists _, _. split; [reflexivity|].
  set (hs := holdings (database st)).
  set (row := created_row env holding st).
  assert (Hid : Holding.id row = next_id (map Holding.id hs)) by reflexivity.
  cbn [HoldingResponse.id holding_response].
  rewrite delete_holding_run. cbn [database holdings].
  rewrite (find_new_holding hs row Hid). cbn [fst snd database].
  split; [reflexivity|].
  unfold delete_row. cbn [holdings price_snapshots portfolio_history].
  rewrite filter_app, (filter_other_ids hs (Holding.id row))
    by (intros h Hin; rewrite Hid; now apply holding_ids_below_next).
  cbn [filter]. rewrite Z.eqb_refl. cbn [negb]. rewrite app_nil_r.
  replace (map (detach (Holding.id row)) (price_snapshots (database st)))
    with (price_snapshots (database st)).
  - subst hs. now destruct (database st).
  - symmetry. rewrite <- (map_id (price_snapshots (database st))) at 2.
    apply map_ext_in. intros s Hin. apply detach_other. intros Hsnap.
    apply (Hrefs s _ Hin) in Hsnap.
    apply in_map_iff in Hsnap as [h [Hh Hin']].
    apply (holding_ids_below_next hs h Hin'). now rewrite Hh, Hid.
Qed.

Lemma create_then_delete_restores_witness :
  exists response st1,
    create_holding sample_env (HoldingCreate.mk "BBB" 3%float 25%float)
      tracked_holding = (Ok response, st1) /\
    fst (delete_holding sample_env (HoldingResponse.id response) st1) =
      Ok "Holding deleted" /\
    database (snd (delete_holding sample_env (HoldingResponse.id response)
                     st1)) =
      database tracked_holding.
Proof.
  apply (create_then_delete_restores sample_env
           (HoldingCreate.mk "BBB" 3%float 25%float) tracked_holding).
  - reflexivity.
  - reflexivity.
  - reflexivity.
  - intros s k [<-|[]] Hk. cbn in Hk. injection Hk as <-. cbn. now left.
Defined.

(** X8: deleting the same id twice in a row: the second request never
    finds a holding, whether or not the first one did; it raises HTTP 404
    "Holding not found" for an id the store can hold and an OverflowError
    for any other. *)
Theorem delete_holding_twice_is_not_found (env : Env) (holding_id : Z)
    (st : State) :
  fst (delete_holding env holding_id
         (snd (delete_holding env holding_id st))) =
  Raise (if sqlite_integer holding_id
         then HTTPException 404 "Holding not found"
         else overflow_error).
Proof.
  rewrite (delete_holding_run env holding_id st).
  destruct (find (fun h => Holding.id h =? holding_id)
              (holdings (database st))) as [h|] eqn:Hfind; cbn [snd].
  - apply find_some in Hfind as [_ Hid]. apply Z.eqb_eq in Hid.
    rewrite delete_holding_run.
    cbn [database delete_row holdings]. rewrite Hid.
    replace (find _ (filter _ _)) with (@None Holding.t); [reflexivity|].
    symmetry. apply find_holding_none. intros [h' [Hin Hk]].
    apply filter_In in Hin as [_ Hne].
    apply negb_true_iff, Z.eqb_neq in Hne. contradiction.
  - rewrite delete_holding_run. cbn [database]. now rewrite Hfind.
Qed.





(** ** Summary, listing and job on the same holdings *)










(** ** What the requests leave alone *)

(** The history table after a run, interrupted or not. *)
Lemma update_price_snapshots_history (env : Env) (fault : Fault)
    (st : State) :
  exists added,
    portfolio_history
      (database (snd (update_price_snapshots env fault st))) =
    portfolio_history (database st) ++ added /\
    (List.length added <= 1)%nat /\
    holdings (database (snd (update_price_snapshots env fault st))) =
    holdings (database st).
Proof.
  destruct (strikes fault (List.length (holdings (database st))))
    as [e|] eqn:Hs.
  - destruct (snapshot_body_raises env fault (snd (SessionLocal st)) e Hs)
      as [st1 Hst1].
    rewrite (update_price_snapshots_raise _ _ _ _ _ Hst1).
    exists []. cbn. rewrite app_nil_r. auto.
  - rewrite (update_price_snapshots_unhit _ _ _ Hs).
    destruct (update_price_snapshots_run env st) as [rows [_ Hrun]].
    rewrite Hrun. eexists [_]. cbn. auto.
Qed.

Lemma trigger_snapshot_state (env : Env) (fault : Fault) (st : State) :
  snd (trigger_snapshot env fault st) =
  snd (update_price_snapshots env fault st).
Proof.
  unfold trigger_snapshot, bind, ret.
  destruct (update_price_snapshots env fault st) as [[[]|e] st'];
    reflexivity.
Qed.

(** X14: PortfolioHistory rows are only ever appended, at most one per
    request and only by a run of the snapshot job: every other request,
    creating and deleting holdings included, leaves the history table as
    it is. *)
Theorem portfolio_history_is_append_only (env : Env) (r : Request)
    (st : State) :
  exists added,
    portfolio_history (database (serve env r st)) =
      portfolio_history (database st) ++ added /\
    (List.length added <= 1)%nat /\
    (is_snapshot_job r = false -> added = []).
Proof.
  destruct r; cbn [serve is_snapshot_job].
  - exists []. rewrite app_nil_r. cbn. auto.
  - rewrite get_holdings_run. exists []. rewrite app_nil_r. cbn. auto.
  - rewrite create_holding_run. exists [].
    destruct (py_eq_zero _); cbn; rewrite app_nil_r; auto.
  - rewrite delete_holding_run. exists [].
    destruct (find _ _) as [h|]; cbn; rewrite app_nil_r; auto.
  - rewrite get_portfolio_summary_run. exists []. rewrite app_nil_r.
    cbn. auto.
  - rewrite get_portfolio_history_run. exists []. rewrite app_nil_r.
    cbn. auto.
  - rewrite get_current_stock_price_run. exists [].
    destruct (py_eq_zero _); cbn; rewrite app_nil_r; auto.
  - rewrite trigger_snapshot_state.
    destruct (update_price_snapshots_history env fault st)
      as [added [Hadded [Hlen _]]].
    exists added. repeat split; auto. discriminate.
  - destruct (update_price_snapshots_history env fault st)
      as [added [Hadded [Hlen _]]].
    exists added. repeat split; auto. discriminate.
Qed.

(** X15: the reading requests (root, listing, summary, history,
    single-ticker price) change no table, and a run of the snapshot job,
    interrupted or not, never changes the holdings table. *)
Theorem reading_requests_change_no_table (env : Env) (r : Request)
    (st : State) :
  (is_read_only r = true -> database (serve env r st) = database st) /\
  (is_snapshot_job r = true ->
   holdings (database (serve env r st)) = holdings (database st)).
Proof.
  destruct r; cbn [serve is_read_only is_snapshot_job];
    split; try discriminate; intros _.
  - reflexivity.
  - now rewrite get_holdings_run.
  - now rewrite get_portfolio_summary_run.
  - now rewrite get_portfolio_history_run.
  - rewrite get_current_stock_price_run.
    destruct (py_eq_zero _); reflexivity.
  - rewrite trigger_snapshot_state.
    destruct (update_price_snapshots_history env fault st)
      as [added [_ [_ Hh]]]. exact Hh.
  - destruct (update_price_snapshots_history env fault st)
      as [added [_ [_ Hh]]]. exact Hh.
Qed.


(** ** A provider that answers nothing *)






(** ** A run whose figures are not numbers *)


